(** * Oak Protocol deployment script (deploy.py): model and properties

    The script is a linear pipeline of four stages (prerequisite check,
    build, deploy, initialize) driven by [main].  Every stage is a thin
    wrapper around [subprocess.run] plus some text scanning.  The model
    below keeps that shape: Python strings are lists of code points, the
    operating system is an oracle answering each command from the history
    of the commands run before it, and the stages are written in a small
    state-and-exception monad whose state is the trace of what the script
    did (what it printed, which commands it started). *)

From Stdlib Require Import List NArith ZArith Bool Ascii String Lia.
Import ListNotations.

Local Open Scope N_scope.
Local Open Scope list_scope.

(** ** Python strings *)

Module Py.

(** A [str] is a sequence of Unicode code points. *)
Definition char := N.
Definition str := list char.

(** A literal of the source, written as a Rocq string (ASCII only). *)
Definition lit (s : string) : str :=
  map N_of_ascii (list_ascii_of_string s).

Definition eqb_char (a b : char) : bool := N.eqb a b.

Fixpoint eqb (a b : str) : bool :=
  match a, b with
  | [], [] => true
  | x :: a', y :: b' => eqb_char x y && eqb a' b'
  | _, _ => false
  end.

(** [s.startswith(p)] *)
Fixpoint startswith (p s : str) : bool :=
  match p, s with
  | [], _ => true
  | x :: p', y :: s' => eqb_char x y && startswith p' s'
  | _ :: _, [] => false
  end.

(** [sub in s] *)
Fixpoint contains (sub s : str) : bool :=
  startswith sub s ||
  match s with
  | [] => false
  | _ :: s' => contains sub s'
  end.

(** [str.isspace] on one code point: the ASCII white space of CPython
    (TAB..CR, FS..US, SPACE) and the Unicode white space above it. *)
Definition isspace (c : char) : bool :=
  ((9 <=? c) && (c <=? 13)) || ((28 <=? c) && (c <=? 32))
  || (c =? 133) || (c =? 160) || (c =? 5760)
  || ((8192 <=? c) && (c <=? 8202))
  || (c =? 8232) || (c =? 8233) || (c =? 8239) || (c =? 8287)
  || (c =? 12288).

(** [str.lower].  The letters A..Z are mapped to a..z.  Above ASCII the
    case mapping is a table of the Unicode database and is left out: the
    only use of [lower] in the script is a membership test for the ASCII
    words "deployed" and "address", and no character outside A..Z
    lowercases to a letter of these two words. *)
Definition lower_char (c : char) : char :=
  if (65 <=? c) && (c <=? 90) then c + 32 else c.

Definition lower (s : str) : str := map lower_char s.

(** [s.split(sep)] for a non-empty separator: left to right, occurrences
    do not overlap.  [skip] counts the characters of a separator that was
    recognised and is still to be dropped; [cur] is the current piece,
    reversed. *)
Fixpoint split_from (sep : str) (skip : nat) (cur : str) (s : str) : list str :=
  match s with
  | [] => [rev cur]
  | c :: s' =>
      match skip with
      | S k => split_from sep k cur s'
      | O =>
          if startswith sep s
          then rev cur :: split_from sep (pred (List.length sep)) [] s'
          else split_from sep O (c :: cur) s'
      end
  end.

Definition split (sep s : str) : list str := split_from sep O [] s.

(** [s.split()]: pieces between runs of white space, never empty. *)
Fixpoint split_ws_from (cur : str) (s : str) : list str :=
  match s with
  | [] => match cur with [] => [] | _ => [rev cur] end
  | c :: s' =>
      if isspace c
      then match cur with
           | [] => split_ws_from [] s'
           | _ => rev cur :: split_ws_from [] s'
           end
      else split_ws_from (c :: cur) s'
  end.

Definition split_ws (s : str) : list str := split_ws_from [] s.

(** [s.strip()] *)
Fixpoint lstrip (s : str) : str :=
  match s with
  | c :: s' => if isspace c then lstrip s' else s
  | [] => []
  end.

Definition strip (s : str) : str := rev (lstrip (rev (lstrip s))).

(** [s[:n]] *)
Definition slice_to (n : nat) (s : str) : str := firstn n s.

(** Truth value of an [Optional[str]]: [None] and the empty string are
    false. *)
Definition truthy (o : option str) : bool :=
  match o with
  | Some (_ :: _) => true
  | _ => false
  end.

End Py.

Import Py.

(** ** The operating system and the effects of the script *)

(** A command line, as passed to [subprocess.run]. *)
Definition argv := list str.

(** What starting a command can do: the program runs and exits with a
    status and its two output streams, or the executable is not found.
    These are the two outcomes the script itself provides for
    ([CalledProcessError], [FileNotFoundError]).  Other failures of
    [subprocess.run] (an executable that may not be executed, output that
    cannot be decoded) are outside the model: the properties below are
    about runs in which every command exits or is missing. *)
Inductive outcome : Type :=
| Exited (returncode : Z) (stdout stderr : str)
| NoSuchFile.

(** The operating system.  A command is answered from the commands that
    were started before it, so the outcome of one command may depend on the
    earlier ones (a build creates the artifact, a tool may disappear). *)
Record OS : Type := {
  exec : list argv -> argv -> outcome;
  stat_size : list argv -> str -> option N;   (* [None]: no such path *)
  getenv : str -> option str
}.

(** The exceptions that occur in the script. *)
Inductive exn : Type :=
| CalledProcessError (returncode : Z) (stderr : str)
| FileNotFoundError
| IndexError
| SystemExit (code : Z).

(** One constructor per [print] of the source, with the values the text
    interpolates; the wording of the messages is not modelled. *)
Inductive message : Type :=
(* check_prerequisites *)
| Msg_checking
| Msg_rust_installed
| Msg_rust_not_found
| Msg_stylus_installed (version : str)
| Msg_stylus_not_found
| Msg_installing_target
| Msg_target_available
| Msg_target_failed
(* compile_contract *)
| Msg_compiling
| Msg_compiled
| Msg_wasm_size (st_size : N)
| Msg_wasm_not_found
| Msg_compilation_failed (stderr : str)
(* deploy_contract *)
| Msg_deploying
| Msg_credential_required
| Msg_in_progress
| Msg_output (output : str)
| Msg_line (line : str)
| Msg_cannot_parse
| Msg_deploy_error (stderr : str)
(* initialize_contract *)
| Msg_initializing (contract : str)
| Msg_owner (owner : str)
| Msg_treasury (treasury : str)
| Msg_initialized
| Msg_init_output (stdout : str)
| Msg_init_error (stderr : str)
(* main *)
| Msg_rule
| Msg_title
| Msg_set_credential
| Msg_credential_example
| Msg_addresses_not_set
| Msg_will_not_initialize
| Msg_set_them
| Msg_export_owner
| Msg_export_treasury
| Msg_deployment_failed
| Msg_deployed_at (contract : str)
| Msg_newline_rule
| Msg_complete
| Msg_contract_address (contract : str)
| Msg_summary_owner (owner : str)
| Msg_summary_treasury (treasury : str)
| Msg_next_steps
| Msg_step (n : nat)
| Msg_init_failed
| Msg_init_manually
| Msg_not_initialized
| Msg_set_and_run
| Msg_interaction (contract : str) (owner treasury : option str).

(** What the script does that can be seen from outside. *)
Inductive event : Type :=
| Printed (m : message)
| Started (cmd : argv).

Definition trace := list event.

(** The commands of a trace, in the order they were started. *)
Fixpoint commands (t : trace) : list argv :=
  match t with
  | [] => []
  | Started cmd :: t' => cmd :: commands t'
  | Printed _ :: t' => commands t'
  end.

Inductive result (A : Type) : Type :=
| Ret (a : A)
| Raise (e : exn).
Arguments Ret {A} a.
Arguments Raise {A} e.

(** A computation of the script: from the trace so far to a result and the
    trace extended. *)
Definition M (A : Type) : Type := trace -> result A * trace.

Definition ret {A} (a : A) : M A := fun t => (Ret a, t).

Definition raise {A} (e : exn) : M A := fun t => (Raise e, t).

Definition bind {A B} (m : M A) (k : A -> M B) : M B :=
  fun t =>
    match m t with
    | (Ret a, t') => k a t'
    | (Raise e, t') => (Raise e, t')
    end.

(** [try: m except ...: h]: the handler says which exceptions it takes. *)
Definition try_except {A} (m : M A) (h : exn -> option (M A)) : M A :=
  fun t =>
    match m t with
    | (Ret a, t') => (Ret a, t')
    | (Raise e, t') =>
        match h e with
        | Some k => k t'
        | None => (Raise e, t')
        end
    end.

Declare Scope py_scope.
Delimit Scope py_scope with py.
Notation "x <- m ;; k" := (bind m (fun x => k))
  (at level 61, m at next level, right associativity) : py_scope.
Notation "m ;; k" := (bind m (fun _ => k))
  (at level 61, right associativity) : py_scope.
Local Open Scope py_scope.

Definition print (m : message) : M unit :=
  fun t => (Ret tt, t ++ [Printed m]).

(** [l[i]] *)
Definition getitem {A} (l : list A) (i : nat) : M A :=
  match nth_error l i with
  | Some a => ret a
  | None => raise IndexError
  end.

(** [sys.exit(code)] *)
Definition sys_exit {A} (code : Z) : M A := raise (SystemExit code).

(** The exit status of the interpreter for the outcome of [main]: 0 when it
    returns, the code of a [SystemExit], 1 for any other exception (which
    reaches the top level and is printed as a traceback). *)
Definition exit_status {A} (r : result A) : Z :=
  match r with
  | Ret _ => 0%Z
  | Raise (SystemExit code) => code
  | Raise _ => 1%Z
  end.

Section Script.

Variable os : OS.

(** [subprocess.run(cmd, check=True, ...)]: the outputs of a command that
    exits with status zero; [CalledProcessError] for another status;
    [FileNotFoundError] when the executable is missing. *)
Definition run (cmd : argv) : M (str * str) :=
  fun t =>
    let t' := t ++ [Started cmd] in
    match exec os (commands t) cmd with
    | Exited 0%Z out err => (Ret (out, err), t')
    | Exited rc _ err => (Raise (CalledProcessError rc err), t')
    | NoSuchFile => (Raise FileNotFoundError, t')
    end.

(** [Path(p).exists()] and [Path(p).stat().st_size] *)
Definition path_size (p : str) : M (option N) :=
  fun t => (Ret (stat_size os (commands t) p), t).

(** *** Constants of the module *)

Definition ARBITRUM_SEPOLIA_RPC : str := lit "https://sepolia-rollup.arbitrum.io/rpc".

Definition wasm_file : str := lit "target/wasm32-unknown-unknown/release/oak_protocol.wasm".

Definition wasm32 : str := lit "wasm32-unknown-unknown".

(** The line feed, ["\n"]. *)
Definition newline : str := [10].

(** *** check_prerequisites *)

Definition rustc_version : argv := [lit "rustc"; lit "--version"].
Definition stylus_version : argv := [lit "cargo"; lit "stylus"; lit "--version"].
Definition target_list : argv := [lit "rustup"; lit "target"; lit "list"; lit "--installed"].
Definition target_add : argv := [lit "rustup"; lit "target"; lit "add"; wasm32].

(** The handlers of the three [try] blocks; each prints and makes the
    function return [False]. *)
Definition except_missing (m : message) (e : exn) : option (M bool) :=
  match e with
  | CalledProcessError _ _ | FileNotFoundError => Some (print m ;; ret false)
  | _ => None
  end.

Definition except_called (m : message) (e : exn) : option (M bool) :=
  match e with
  | CalledProcessError _ _ => Some (print m ;; ret false)
  | _ => None
  end.

(** Each [try] block yields [true] when control falls through to the next
    statement and [false] when its handler returned [False]. *)
Definition check_rust : M bool :=
  try_except
    (run rustc_version ;; print Msg_rust_installed ;; ret true)
    (except_missing Msg_rust_not_found).

Definition check_stylus : M bool :=
  try_except
    (r <- run stylus_version ;;
     print (Msg_stylus_installed (strip (fst r))) ;; ret true)
    (except_missing Msg_stylus_not_found).

Definition check_target : M bool :=
  try_except
    (run target_list ;;
     r <- run target_list ;;
     (if negb (contains wasm32 (fst r))
      then print Msg_installing_target ;; run target_add ;; ret tt
      else ret tt) ;;
     print Msg_target_available ;; ret true)
    (except_called Msg_target_failed).

Definition check_prerequisites : M bool :=
  print Msg_checking ;;
  ok <- check_rust ;;
  if negb ok then ret false else
  ok <- check_stylus ;;
  if negb ok then ret false else
  ok <- check_target ;;
  if negb ok then ret false else
  ret true.

(** *** compile_contract *)

Definition build_cmd : argv :=
  [lit "cargo"; lit "build"; lit "--target"; wasm32; lit "--release"].

Definition compile_contract : M bool :=
  print Msg_compiling ;;
  try_except
    (run build_cmd ;;
     print Msg_compiled ;;
     size <- path_size wasm_file ;;
     match size with
     | Some st_size => print (Msg_wasm_size st_size) ;; ret true
     | None => print Msg_wasm_not_found ;; ret false
     end)
    (fun e =>
       match e with
       | CalledProcessError _ stderr =>
           Some (print (Msg_compilation_failed stderr) ;; ret false)
       | _ => None
       end).

(** *** deploy_contract *)

Definition flag_private_key : str := lit "--private-key".
Definition flag_mnemonic : str := lit "--mnemonic".

(** The command of the deployer: the fixed arguments, then the flag of the
    credential ([if private_key: ... elif mnemonic: ...]). *)
Definition deploy_cmd (private_key mnemonic : option str) (rpc_url : str) : argv :=
  let cmd :=
    [lit "cargo"; lit "stylus"; lit "deploy";
     lit "--wasm-file"; wasm_file;
     lit "--network"; lit "sepolia";
     lit "--rpc-url"; rpc_url] in
  match private_key with
  | Some (c :: k) => cmd ++ [flag_private_key; c :: k]
  | _ =>
      match mnemonic with
      | Some (c :: m) => cmd ++ [flag_mnemonic; c :: m]
      | _ => cmd
      end
  end.

(** The test of the loop on one line. *)
Definition mentions_deployment (line : str) : bool :=
  contains (lit "deployed") (lower line) || contains (lit "address") (lower line).

(** The [for] loop over the lines of the output and the two statements
    after it. *)
Fixpoint scan_lines (lines : list str) : M (option str) :=
  match lines with
  | [] => print Msg_cannot_parse ;; ret None
  | line :: rest =>
      if mentions_deployment line then
        print (Msg_line line) ;;
        if contains (lit "0x") line then
          let parts := split (lit "0x") line in
          if (1 <? List.length parts)%nat then
            part <- getitem parts 1 ;;
            word <- getitem (split_ws part) 0 ;;
            ret (Some (lit "0x" ++ slice_to 40 word))
          else scan_lines rest
        else scan_lines rest
      else scan_lines rest
  end.

Definition deploy_contract (private_key mnemonic : option str) (rpc_url : str)
  : M (option str) :=
  print Msg_deploying ;;
  if negb (truthy private_key) && negb (truthy mnemonic) then
    print Msg_credential_required ;; ret None
  else
    let cmd := deploy_cmd private_key mnemonic rpc_url in
    try_except
      (print Msg_in_progress ;;
       r <- run cmd ;;
       let output := fst r ++ snd r in
       print (Msg_output output) ;;
       scan_lines (split newline output))
      (fun e =>
         match e with
         | CalledProcessError _ stderr =>
             Some (print (Msg_deploy_error stderr) ;; ret None)
         | _ => None
         end).

(** *** initialize_contract *)

Definition init_cmd (contract_address owner_address treasury_address : str)
    (private_key mnemonic : option str) (rpc_url : str) : argv :=
  let cmd :=
    [lit "cargo"; lit "stylus"; lit "call";
     lit "--address"; contract_address;
     lit "--function"; lit "init";
     lit "--args"; owner_address ++ lit "," ++ treasury_address;
     lit "--network"; lit "sepolia";
     lit "--rpc-url"; rpc_url] in
  match private_key with
  | Some (c :: k) => cmd ++ [flag_private_key; c :: k]
  | _ =>
      match mnemonic with
      | Some (c :: m) => cmd ++ [flag_mnemonic; c :: m]
      | _ => cmd
      end
  end.

Definition initialize_contract (contract_address owner_address treasury_address : str)
    (private_key mnemonic : option str) (rpc_url : str) : M bool :=
  print (Msg_initializing contract_address) ;;
  print (Msg_owner owner_address) ;;
  print (Msg_treasury treasury_address) ;;
  let cmd := init_cmd contract_address owner_address treasury_address
               private_key mnemonic rpc_url in
  try_except
    (r <- run cmd ;;
     print Msg_initialized ;;
     print (Msg_init_output (fst r)) ;;
     ret true)
    (fun e =>
       match e with
       | CalledProcessError _ stderr =>
           Some (print (Msg_init_error stderr) ;; ret false)
       | _ => None
       end).

(** *** main *)

Definition warn_addresses : M unit :=
  print Msg_addresses_not_set ;;
  print Msg_will_not_initialize ;;
  print Msg_set_them ;;
  print Msg_export_owner ;;
  print Msg_export_treasury.

Definition report_complete (contract owner treasury : str) : M unit :=
  print Msg_newline_rule ;;
  print Msg_complete ;;
  print Msg_rule ;;
  print (Msg_contract_address contract) ;;
  print (Msg_summary_owner owner) ;;
  print (Msg_summary_treasury treasury) ;;
  print Msg_next_steps ;;
  print (Msg_step 1) ;;
  print (Msg_step 2) ;;
  print (Msg_step 3).

(** The last [if] of [main], entered with the address of the contract. *)
Definition finish (contract : str) (owner_address treasury_address : option str)
    (private_key mnemonic : option str) : M unit :=
  match owner_address, treasury_address with
  | Some (o :: ow), Some (a :: tr) =>
      ok <- initialize_contract contract (o :: ow) (a :: tr)
              private_key mnemonic ARBITRUM_SEPOLIA_RPC ;;
      if ok then report_complete contract (o :: ow) (a :: tr)
      else print Msg_init_failed ;; print Msg_init_manually
  | _, _ =>
      print Msg_not_initialized ;;
      print Msg_set_and_run ;;
      print (Msg_interaction contract owner_address treasury_address)
  end.

Definition main : M unit :=
  print Msg_rule ;;
  print Msg_title ;;
  print Msg_rule ;;
  ok <- check_prerequisites ;;
  if negb ok then sys_exit 1 else
  ok <- compile_contract ;;
  if negb ok then sys_exit 1 else
  let private_key := getenv os (lit "PRIVATE_KEY") in
  let mnemonic := getenv os (lit "MNEMONIC") in
  if negb (truthy private_key) && negb (truthy mnemonic) then
    print Msg_set_credential ;;
    print Msg_credential_example ;;
    sys_exit 1
  else
  let owner_address := getenv os (lit "OWNER_ADDRESS") in
  let treasury_address := getenv os (lit "TREASURY_ADDRESS") in
  (if negb (truthy owner_address) || negb (truthy treasury_address)
   then warn_addresses else ret tt) ;;
  contract_address <- deploy_contract private_key mnemonic ARBITRUM_SEPOLIA_RPC ;;
  match contract_address with
  | Some (c :: a) =>
      print (Msg_deployed_at (c :: a)) ;;
      finish (c :: a) owner_address treasury_address private_key mnemonic
  | _ =>
      print Msg_deployment_failed ;;
      sys_exit 1
  end.

End Script.

(** The script as a process: the exit status and the trace of a run. *)
Definition run_script (os : OS) : Z * trace :=
  let (r, t) := main os [] in (exit_status r, t).

(** *** The stages of a run

    The calls of [main], each on the trace the driver has reached when it
    makes the call.  [main_unfold] below shows that [main] is their
    composition. *)

Definition banner : trace := [Printed Msg_rule; Printed Msg_title; Printed Msg_rule].

Definition private_key_of (os : OS) : option str := getenv os (lit "PRIVATE_KEY").
Definition mnemonic_of (os : OS) : option str := getenv os (lit "MNEMONIC").
Definition owner_of (os : OS) : option str := getenv os (lit "OWNER_ADDRESS").
Definition treasury_of (os : OS) : option str := getenv os (lit "TREASURY_ADDRESS").

Definition checked (os : OS) : result bool * trace :=
  check_prerequisites os banner.

Definition built (os : OS) : result bool * trace :=
  compile_contract os (snd (checked os)).

(** The trace before the deployer is called: the warning about the two
    addresses is printed when one of them is not set. *)
Definition warned (os : OS) : trace :=
  snd ((if negb (truthy (owner_of os)) || negb (truthy (treasury_of os))
        then warn_addresses else ret tt) (snd (built os))).

Definition deployed (os : OS) : result (option str) * trace :=
  deploy_contract os (private_key_of os) (mnemonic_of os) ARBITRUM_SEPOLIA_RPC
    (warned os).

Definition initialized (os : OS) (contract owner treasury : str) : result bool * trace :=
  initialize_contract os contract owner treasury
    (private_key_of os) (mnemonic_of os) ARBITRUM_SEPOLIA_RPC
    (snd (deployed os) ++ [Printed (Msg_deployed_at contract)]).

(** *** Addresses *)

Definition is_hex (c : char) : bool :=
  ((48 <=? c) && (c <=? 57)) || ((65 <=? c) && (c <=? 70))
  || ((97 <=? c) && (c <=? 102)).

(** An address in full: "0x" and forty hexadecimal digits. *)
Definition is_address (a : str) : bool :=
  match a with
  | 48 :: 120 :: digits => Nat.eqb (List.length digits) 40 && forallb is_hex digits
  | _ => false
  end.

Definition deployed_address : str := lit "0xABCDEF0123456789ABCDEF0123456789ABCDEF01".

(** A line from which the loop of the deployer takes an address (or on
    which it fails): it names the deployment and holds "0x". *)
Definition selected (line : str) : bool :=
  mentions_deployment line && contains (lit "0x") line.

(** ** Concrete systems

    Small operating systems on which the script can be run by evaluation.
    They serve as the inputs of the examples below. *)

Module Sample.

Fixpoint argv_eqb (a b : argv) : bool :=
  match a, b with
  | [], [] => true
  | x :: a', y :: b' => Py.eqb x y && argv_eqb a' b'
  | _, _ => false
  end.

Fixpoint argv_prefix (p a : argv) : bool :=
  match p, a with
  | [], _ => true
  | x :: p', y :: a' => Py.eqb x y && argv_prefix p' a'
  | _ :: _, [] => false
  end.

Definition is_deploy (cmd : argv) : bool :=
  argv_prefix [lit "cargo"; lit "stylus"; lit "deploy"] cmd.

Definition is_call (cmd : argv) : bool :=
  argv_prefix [lit "cargo"; lit "stylus"; lit "call"] cmd.

(** An environment given by its bindings. *)
Fixpoint environ (bindings : list (string * string)) (name : str) : option str :=
  match bindings with
  | [] => None
  | (k, v) :: rest => if Py.eqb (lit k) name then Some (lit v) else environ rest name
  end.

(** Every tool is installed and succeeds; the target list names the wasm32
    target; the deploy tool prints [deploy_out] on its standard output and
    the call tool exits with [call_status]. *)
Definition replies (deploy_out : str) (call_status : Z) (cmd : argv) : outcome :=
  if argv_eqb cmd target_list then Exited 0 (wasm32 ++ newline) []
  else if argv_eqb cmd stylus_version then Exited 0 (lit "stylus 0.5.0" ++ newline) []
  else if is_deploy cmd then Exited 0 deploy_out []
  else if is_call cmd then Exited call_status [] (lit "execution reverted")
  else Exited 0 [] [].

(** The artifact is there once the build command has run. *)
Definition artifact_after_build (size : option N) (history : list argv) (p : str)
  : option N :=
  if existsb (argv_eqb build_cmd) history && Py.eqb p wasm_file then size else None.

Definition healthy (deploy_out : str) (call_status : Z)
    (bindings : list (string * string)) : OS :=
  {| exec := fun _ cmd => replies deploy_out call_status cmd;
     stat_size := artifact_after_build (Some 204800);
     getenv := environ bindings |}.

Definition deployed_line : str :=
  lit "Contract deployed at: 0xABCDEF0123456789ABCDEF0123456789ABCDEF01 (gas used: 500000)".

Definition key_only : list (string * string) := [("PRIVATE_KEY", "0xkey")]%string.

Definition key_and_addresses : list (string * string) :=
  [("PRIVATE_KEY", "0xkey"); ("OWNER_ADDRESS", "0x01"); ("TREASURY_ADDRESS", "0x02")]%string.

(** A build that exits with status zero and leaves no artifact. *)
Definition no_artifact : OS :=
  {| exec := fun _ cmd => replies deployed_line 0 cmd;
     stat_size := artifact_after_build None;
     getenv := environ key_only |}.


(** The compiler is installed, the deployment tool is not: [cargo] does not
    know the subcommand and exits with status 101. *)
Definition no_stylus : OS :=
  {| exec := fun _ cmd =>
       if argv_eqb cmd stylus_version
       then Exited 101 [] (lit "error: no such command: `stylus`")
       else replies deployed_line 0 cmd;
     stat_size := artifact_after_build (Some 204800);
     getenv := environ key_only |}.

(** Outputs of the deploy tool. *)
Definition verbose_output : str :=
  lit "contract size: 8.9 KB" ++ newline ++ deployed_line ++ newline
  ++ lit "deployment tx hash: 0xa55efc05".

Definition short_output : str := lit "deployed at 0xZZ".

Definition shadowed_output : str :=
  lit "address: 0x1234 0x5678" ++ newline ++ deployed_line.

Definition bare_output : str := lit "Contract deployed at: 0x".

(** Everything succeeds up to the deployment; after it the [cargo]
    executable is gone, so the call command cannot be started. *)
Definition cargo_vanishes : OS :=
  {| exec := fun history cmd =>
       if existsb is_deploy history && argv_prefix [lit "cargo"] cmd
       then NoSuchFile
       else replies deployed_line 0 cmd;
     stat_size := artifact_after_build (Some 204800);
     getenv := environ key_and_addresses |}.

(** The compiler and [cargo] come from the distribution; there is no
    [rustup]. *)
Definition no_rustup : OS :=
  {| exec := fun _ cmd =>
       if argv_prefix [lit "rustup"] cmd then NoSuchFile
       else replies deployed_line 0 cmd;
     stat_size := artifact_after_build (Some 204800);
     getenv := environ key_only |}.

(** The wasm32 target is not installed yet; installing it works. *)
Definition missing_target : OS :=
  {| exec := fun _ cmd =>
       if argv_eqb cmd target_list
       then Exited 0 (lit "x86_64-unknown-linux-gnu" ++ newline) []
       else replies deployed_line 0 cmd;
     stat_size := artifact_after_build (Some 204800);
     getenv := environ key_only |}.

End Sample.

Import Sample.

(** ** Properties *)

(** *** The monad and the trace *)

Lemma commands_app (t u : trace) : commands (t ++ u) = commands t ++ commands u.
Proof.
  induction t as [|[m|cmd] t IH]; simpl; [reflexivity | exact IH | now rewrite IH].
Qed.

Lemma commands_printed (t : trace) (m : message) :
  commands (t ++ [Printed m]) = commands t.
Proof. rewrite commands_app. simpl. apply app_nil_r. Qed.

Lemma commands_started (t : trace) (cmd : argv) :
  commands (t ++ [Started cmd]) = commands t ++ [cmd].
Proof. now rewrite commands_app. Qed.

(** Normal form of the commands of a trace built by appending. *)
Ltac history :=
  repeat rewrite commands_app; cbn [commands app];
  repeat rewrite <- app_assoc; cbn [app]; rewrite ?app_nil_r.

(** A command succeeds when it is found and exits with status zero. *)
Definition succeeds (o : outcome) : bool :=
  match o with
  | Exited 0%Z _ _ => true
  | _ => false
  end.

Lemma succeeds_exited (o : outcome) :
  succeeds o = true <-> exists out err, o = Exited 0 out err.
Proof.
  split.
  - destruct o as [[|p|p] out err|]; simpl; try discriminate. now exists out, err.
  - now intros (out & err & ->).
Qed.

Lemma run_succeeds (os : OS) (cmd : argv) (t : trace) (out err : str) :
  exec os (commands t) cmd = Exited 0 out err ->
  run os cmd t = (Ret (out, err), t ++ [Started cmd]).
Proof. intros E. unfold run. now rewrite E. Qed.

Lemma run_fails (os : OS) (cmd : argv) (t : trace) :
  succeeds (exec os (commands t) cmd) = false ->
  exists e, run os cmd t = (Raise e, t ++ [Started cmd]) /\
            (e = FileNotFoundError \/ exists rc err, e = CalledProcessError rc err).
Proof.
  unfold run. destruct (exec os (commands t) cmd) as [[|p|p] out err|]; simpl;
    try discriminate; intros _; eexists; split; try reflexivity; eauto.
Qed.

(** Whatever a command does, [run] records that it was started. *)
Lemma run_trace (os : OS) (cmd : argv) (t : trace) :
  snd (run os cmd t) = t ++ [Started cmd].
Proof.
  unfold run. now destruct (exec os (commands t) cmd) as [[|p|p] out err|].
Qed.

(** *** The credential *)

(** C2.  When neither a private key nor a mnemonic is supplied (each is
    [None] or empty), the deployer returns [None] at once: it prints its
    banner and the complaint, and starts no command. *)
Theorem deploy_contract_without_credential
    (os : OS) (private_key mnemonic : option str) (rpc_url : str) (t : trace) :
  truthy private_key = false ->
  truthy mnemonic = false ->
  deploy_contract os private_key mnemonic rpc_url t
    = (Ret None, t ++ [Printed Msg_deploying; Printed Msg_credential_required])
  /\ commands (snd (deploy_contract os private_key mnemonic rpc_url t)) = commands t.
Proof.
  intros Hk Hm.
  assert (E : deploy_contract os private_key mnemonic rpc_url t
              = (Ret None, t ++ [Printed Msg_deploying; Printed Msg_credential_required])).
  { unfold deploy_contract, bind, print, ret. rewrite Hk, Hm. simpl.
    now rewrite <- app_assoc. }
  split; [exact E|].
  rewrite E. simpl. rewrite commands_app. simpl. apply app_nil_r.
Qed.

Lemma deploy_contract_without_credential_witness :
  deploy_contract (healthy deployed_line 0 []) None (Some []) ARBITRUM_SEPOLIA_RPC []
    = (Ret None, [Printed Msg_deploying; Printed Msg_credential_required])
  /\ commands (snd (deploy_contract (healthy deployed_line 0 []) None (Some [])
                      ARBITRUM_SEPOLIA_RPC [])) = [].
Proof.
  apply (deploy_contract_without_credential (healthy deployed_line 0 []) None (Some [])
           ARBITRUM_SEPOLIA_RPC []); reflexivity.
Defined.

(** The fixed arguments of the two commands. *)
Definition deploy_args (rpc_url : str) : argv :=
  [lit "cargo"; lit "stylus"; lit "deploy";
   lit "--wasm-file"; wasm_file;
   lit "--network"; lit "sepolia";
   lit "--rpc-url"; rpc_url].

Definition call_args (contract owner treasury rpc_url : str) : argv :=
  [lit "cargo"; lit "stylus"; lit "call";
   lit "--address"; contract;
   lit "--function"; lit "init";
   lit "--args"; owner ++ lit "," ++ treasury;
   lit "--network"; lit "sepolia";
   lit "--rpc-url"; rpc_url].

Lemma truthy_cons (o : option str) :
  truthy o = true -> exists c s, o = Some (c :: s).
Proof. destruct o as [[|c s]|]; simpl; try discriminate. now exists c, s. Qed.

Lemma deploy_started (os : OS) (pk mn : option str) (rpc_url : str) (t : trace) :
  truthy pk || truthy mn = true ->
  commands (snd (deploy_contract os pk mn rpc_url t))
    = commands t ++ [deploy_cmd pk mn rpc_url].
Proof.
  intros H. unfold deploy_contract, bind, print, try_except.
  replace (negb (truthy pk) && negb (truthy mn)) with false
    by (destruct (truthy pk), (truthy mn); simpl in *; congruence).
  assert (Hc : commands ((t ++ [Printed Msg_deploying]) ++ [Printed Msg_in_progress])
               = commands t) by now rewrite !commands_printed.
  pose proof (run_trace os (deploy_cmd pk mn rpc_url)
                ((t ++ [Printed Msg_deploying]) ++ [Printed Msg_in_progress])) as R.
  destruct (run os (deploy_cmd pk mn rpc_url) _) as [[r|e] t1]; simpl in R; subst t1.
  - set (t2 := _ ++ [Printed (Msg_output _)]).
    assert (H2 : commands t2 = commands t ++ [deploy_cmd pk mn rpc_url]).
    { unfold t2. now rewrite commands_printed, commands_started, Hc. }
    clearbody t2. revert t2 H2.
    induction (split newline (fst r ++ snd r)) as [|line rest IH]; intros t2 H2.
    + simpl. unfold bind, print, ret. simpl. now rewrite commands_printed.
    + simpl. destruct (mentions_deployment line); [|now apply IH].
      unfold bind at 1. unfold print at 1.
      assert (H3 : commands (t2 ++ [Printed (Msg_line line)])
                   = commands t ++ [deploy_cmd pk mn rpc_url])
        by now rewrite commands_printed.
      destruct (contains (lit "0x") line); [|now apply IH].
      destruct (1 <? List.length (split (lit "0x") line))%nat; [|now apply IH].
      unfold bind, getitem, ret, raise.
      destruct (nth_error (split (lit "0x") line) 1) as [part|]; [|exact H3].
      destruct (nth_error (split_ws part) 0); exact H3.
  - destruct e; simpl; unfold bind, print, ret; simpl;
      now rewrite ?commands_printed, commands_started, Hc.
Qed.

Lemma joined_args_not_flag (owner treasury : str) :
  owner ++ lit "," ++ treasury <> flag_mnemonic.
Proof.
  intros E.
  assert (H : In 44 (owner ++ lit "," ++ treasury))
    by (apply in_or_app; right; now left).
  rewrite E in H. vm_compute in H.
  repeat (destruct H as [H|H]; [discriminate H|]). exact H.
Qed.

(** C8.  With both credentials supplied, the command of the deployer is its
    fixed arguments followed by the private-key flag and the key, and this
    is the command it starts; the mnemonic flag is not among the arguments
    (unless the caller passes that very text as the endpoint or the key).
    The command of the initializer is built by the same rule. *)
Theorem private_key_takes_precedence
    (os : OS) (key phrase rpc_url contract owner treasury : str) (t : trace) :
  key <> [] ->
  phrase <> [] ->
  let cmd := deploy_cmd (Some key) (Some phrase) rpc_url in
  let call := init_cmd contract owner treasury (Some key) (Some phrase) rpc_url in
  cmd = deploy_args rpc_url ++ [flag_private_key; key]
  /\ commands (snd (deploy_contract os (Some key) (Some phrase) rpc_url t))
       = commands t ++ [cmd]
  /\ (rpc_url <> flag_mnemonic -> key <> flag_mnemonic -> ~ In flag_mnemonic cmd)
  /\ call = call_args contract owner treasury rpc_url ++ [flag_private_key; key]
  /\ commands (snd (initialize_contract os contract owner treasury
                      (Some key) (Some phrase) rpc_url t))
       = commands t ++ [call]
  /\ (contract <> flag_mnemonic -> rpc_url <> flag_mnemonic ->
      key <> flag_mnemonic -> ~ In flag_mnemonic call).
Proof.
  intros Hk Hp cmd call.
  destruct key as [|c k]; [congruence|].
  destruct phrase as [|d p]; [congruence|].
  assert (Ecmd : cmd = deploy_args rpc_url ++ [flag_private_key; c :: k]) by reflexivity.
  assert (Ecall : call = call_args contract owner treasury rpc_url
                         ++ [flag_private_key; c :: k]) by reflexivity.
  split; [exact Ecmd|].
  split; [now apply deploy_started|].
  split.
  { intros Hr Hkey Hin. rewrite Ecmd in Hin. unfold deploy_args in Hin.
    simpl in Hin.
    repeat (destruct Hin as [Hin|Hin];
            [first [now apply Hr | now apply Hkey | discriminate Hin]|]).
    exact Hin. }
  split; [exact Ecall|].
  split.
  { unfold initialize_contract, bind, print, try_except.
    fold call.
    match goal with |- context [run os call ?u] =>
      pose proof (run_trace os call u) as R;
      assert (Hc : commands u = commands t) by now rewrite !commands_printed
    end.
    destruct (run os call _) as [[r|e] t1]; simpl in R; subst t1.
    - simpl. now rewrite !commands_printed, commands_started, Hc.
    - destruct e; simpl; unfold bind, print, ret; simpl;
        now rewrite ?commands_printed, commands_started, Hc. }
  intros Ha Hr Hkey Hin. rewrite Ecall in Hin. unfold call_args in Hin.
  cbn [app In] in Hin.
  repeat (destruct Hin as [Hin|Hin];
          [first [now apply Ha | now apply Hr | now apply Hkey
                 | now apply (joined_args_not_flag owner treasury)
                 | vm_compute in Hin; discriminate Hin]|]).
  exact Hin.
Qed.

Lemma private_key_takes_precedence_witness :
  let cmd := deploy_cmd (Some (lit "0xkey")) (Some (lit "word word")) ARBITRUM_SEPOLIA_RPC in
  cmd = deploy_args ARBITRUM_SEPOLIA_RPC ++ [flag_private_key; lit "0xkey"]
  /\ ~ In flag_mnemonic cmd.
Proof.
  pose proof (private_key_takes_precedence (healthy deployed_line 0 [])
                (lit "0xkey") (lit "word word") ARBITRUM_SEPOLIA_RPC
                (lit "0x01") (lit "0x02") (lit "0x03") []) as H.
  simpl in H.
  destruct H as (E & _ & N & _); try discriminate.
  split; [exact E|]. apply N; discriminate.
Defined.

(** C10.  The initializer has no credential gate.  Called with neither a
    private key nor a mnemonic, it builds the call command from the fixed
    arguments alone, with no credential flag, and starts it. *)
Theorem initialize_contract_without_credential
    (os : OS) (contract owner treasury : str) (private_key mnemonic : option str)
    (rpc_url : str) (t : trace) :
  truthy private_key = false ->
  truthy mnemonic = false ->
  init_cmd contract owner treasury private_key mnemonic rpc_url
    = call_args contract owner treasury rpc_url
  /\ commands (snd (initialize_contract os contract owner treasury
                      private_key mnemonic rpc_url t))
       = commands t ++ [call_args contract owner treasury rpc_url].
Proof.
  intros Hk Hm.
  assert (E : init_cmd contract owner treasury private_key mnemonic rpc_url
              = call_args contract owner treasury rpc_url).
  { unfold init_cmd.
    destruct private_key as [[|c k]|]; try discriminate Hk;
      destruct mnemonic as [[|d m]|]; try discriminate Hm; reflexivity. }
  split; [exact E|].
  unfold initialize_contract, bind, print, try_except. rewrite E.
  match goal with |- context [run os ?c ?u] =>
    pose proof (run_trace os c u) as R;
    assert (Hc : commands u = commands t) by now rewrite !commands_printed
  end.
  destruct (run os _ _) as [[r|e] t1]; simpl in R; subst t1.
  - simpl. now rewrite !commands_printed, commands_started, Hc.
  - destruct e; simpl; unfold bind, print, ret; simpl;
      now rewrite ?commands_printed, commands_started, Hc.
Qed.

Lemma initialize_contract_without_credential_witness :
  commands (snd (initialize_contract (healthy deployed_line 0 [])
                   (lit "0x01") (lit "0x02") (lit "0x03") None None
                   ARBITRUM_SEPOLIA_RPC []))
    = [call_args (lit "0x01") (lit "0x02") (lit "0x03") ARBITRUM_SEPOLIA_RPC].
Proof.
  apply (initialize_contract_without_credential (healthy deployed_line 0 [])
           (lit "0x01") (lit "0x02") (lit "0x03") None None ARBITRUM_SEPOLIA_RPC []);
    reflexivity.
Defined.

(** *** The builder *)

(** C6.  The builder returns [True] exactly when the build command exits
    with status zero and the artifact exists afterwards; when the command
    exits with status zero and the artifact is absent, it returns [False]. *)
Theorem compile_contract_true_iff (os : OS) (t : trace) :
  (fst (compile_contract os t) = Ret true <->
   succeeds (exec os (commands t) build_cmd) = true
   /\ stat_size os (commands t ++ [build_cmd]) wasm_file <> None)
  /\ (succeeds (exec os (commands t) build_cmd) = true ->
      stat_size os (commands t ++ [build_cmd]) wasm_file = None ->
      fst (compile_contract os t) = Ret false).
Proof.
  unfold compile_contract, bind, print, try_except, run, path_size.
  rewrite commands_printed.
  destruct (exec os (commands t) build_cmd) as [[|p|p] out err|]; simpl.
  - rewrite !commands_app. simpl. rewrite !app_nil_r.
    destruct (stat_size os (commands t ++ [build_cmd]) wasm_file) as [n|]; simpl.
    + split; [|discriminate]. split; [intros _|reflexivity].
      split; [reflexivity|discriminate].
    + split; [|reflexivity]. split; [discriminate|]. intros [_ H]. congruence.
  - split; [|discriminate]. split; [discriminate|]. intros [H _]. discriminate.
  - split; [|discriminate]. split; [discriminate|]. intros [H _]. discriminate.
  - split; [|discriminate]. split; [discriminate|]. intros [H _]. discriminate.
Qed.

Lemma compile_contract_true_iff_witness :
  fst (compile_contract no_artifact []) = Ret false
  /\ fst (compile_contract (healthy deployed_line 0 key_only) []) = Ret true.
Proof.
  split.
  - apply (proj2 (compile_contract_true_iff no_artifact [])); reflexivity.
  - apply (proj1 (compile_contract_true_iff (healthy deployed_line 0 key_only) [])).
    split; [reflexivity | discriminate].
Defined.

(** *** The prerequisite checker *)

Lemma check_rust_spec (os : OS) (t : trace) :
  fst (check_rust os t) = Ret (succeeds (exec os (commands t) rustc_version))
  /\ commands (snd (check_rust os t)) = commands t ++ [rustc_version].
Proof.
  unfold check_rust, try_except, bind, run, print, ret.
  destruct (exec os (commands t) rustc_version) as [[|p|p] out err|]; simpl;
    now rewrite commands_printed, commands_started.
Qed.

Lemma check_stylus_spec (os : OS) (t : trace) :
  fst (check_stylus os t) = Ret (succeeds (exec os (commands t) stylus_version))
  /\ commands (snd (check_stylus os t)) = commands t ++ [stylus_version].
Proof.
  unfold check_stylus, try_except, bind, run, print, ret.
  destruct (exec os (commands t) stylus_version) as [[|p|p] out err|]; simpl;
    now rewrite commands_printed, commands_started.
Qed.

(** The third check starts the list command once or twice and possibly the
    install command, and nothing else. *)
Lemma check_target_commands (os : OS) (t : trace) :
  exists l, commands (snd (check_target os t)) = commands t ++ l
            /\ incl l [target_list; target_add].
Proof.
  unfold check_target, try_except, bind, print, ret.
  pose proof (run_trace os target_list t) as R1.
  destruct (run os target_list t) as [[r1|e1] t1]; simpl in R1; subst t1.
  - pose proof (run_trace os target_list (t ++ [Started target_list])) as R2.
    destruct (run os target_list (t ++ [Started target_list])) as [[r2|e2] t2];
      simpl in R2; subst t2.
    + destruct (contains wasm32 (fst r2)); simpl.
      * exists [target_list; target_list]. split; [now history|].
        intros x [<-|[<-|[]]]; simpl; auto.
      * match goal with |- context [run os target_add ?u] =>
          pose proof (run_trace os target_add u) as R3;
          destruct (run os target_add u) as [[r3|e3] t3]; simpl in R3; subst t3
        end.
        -- exists [target_list; target_list; target_add]. split; [simpl; now history|].
           intros x [<-|[<-|[<-|[]]]]; simpl; auto.
        -- exists [target_list; target_list; target_add].
           split; [destruct e3; simpl; now history|].
           intros x [<-|[<-|[<-|[]]]]; simpl; auto.
    + exists [target_list; target_list]. split; [destruct e2; simpl; now history|].
      intros x [<-|[<-|[]]]; simpl; auto.
  - exists [target_list]. split; [destruct e1; simpl; now history|].
    intros x [<-|[]]; simpl; auto.
Qed.

Lemma surjective_run {A} (x : result A * trace) : x = (fst x, snd x).
Proof. now destruct x. Qed.

Lemma check_prerequisites_unfold (os : OS) (t : trace) :
  check_prerequisites os t
  = (let (r1, t1) := check_rust os (t ++ [Printed Msg_checking]) in
     match r1 with
     | Ret true =>
         let (r2, t2) := check_stylus os t1 in
         match r2 with
         | Ret true =>
             let (r3, t3) := check_target os t2 in
             match r3 with
             | Ret ok => (Ret ok, t3)
             | Raise e => (Raise e, t3)
             end
         | Ret false => (Ret false, t2)
         | Raise e => (Raise e, t2)
         end
     | Ret false => (Ret false, t1)
     | Raise e => (Raise e, t1)
     end).
Proof.
  unfold check_prerequisites, bind, print, ret.
  destruct (check_rust os _) as [[[|]|e1] t1]; try reflexivity. simpl.
  destruct (check_stylus os _) as [[[|]|e2] t2]; try reflexivity. simpl.
  destruct (check_target os _) as [[[|]|e3] t3]; reflexivity.
Qed.

Lemma check_prerequisites_commands (os : OS) (t : trace) :
  exists l, commands (snd (check_prerequisites os t)) = commands t ++ l
            /\ incl l [rustc_version; stylus_version; target_list; target_add].
Proof.
  rewrite !check_prerequisites_unfold.
  destruct (check_rust_spec os (t ++ [Printed Msg_checking])) as [F1 C1].
  rewrite commands_printed in F1, C1.
  rewrite (surjective_run (check_rust os _)), F1.
  destruct (succeeds (exec os (commands t) rustc_version)); simpl.
  2:{ exists [rustc_version]. split; [exact C1|]. intros x [<-|[]]; simpl; auto. }
  destruct (check_stylus_spec os (snd (check_rust os (t ++ [Printed Msg_checking]))))
    as [F2 C2].
  rewrite (surjective_run (check_stylus os _)), F2.
  destruct (succeeds _); simpl.
  2:{ exists [rustc_version; stylus_version]. split.
      - now rewrite C2, C1, <- app_assoc.
      - intros x [<-|[<-|[]]]; simpl; auto. }
  destruct (check_target_commands os
              (snd (check_stylus os (snd (check_rust os (t ++ [Printed Msg_checking]))))))
    as (l & C3 & I3).
  exists (rustc_version :: stylus_version :: l). split.
  - destruct (check_target os _) as [[[|]|e] t3]; simpl in *;
      rewrite C3, C2, C1, <- !app_assoc; reflexivity.
  - intros x [<-|[<-|H]]; simpl; auto.
    destruct (I3 x H) as [<-|[<-|[]]]; auto.
Qed.




(** *** The driver *)

Lemma main_unfold (os : OS) :
  main os []
  = match checked os with
    | (Ret true, _) =>
        match built os with
        | (Ret true, t2) =>
            if negb (truthy (private_key_of os)) && negb (truthy (mnemonic_of os))
            then (Raise (SystemExit 1),
                  t2 ++ [Printed Msg_set_credential; Printed Msg_credential_example])
            else
              match deployed os with
              | (Ret (Some (c :: a)), t3) =>
                  finish os (c :: a) (owner_of os) (treasury_of os)
                    (private_key_of os) (mnemonic_of os)
                    (t3 ++ [Printed (Msg_deployed_at (c :: a))])
              | (Ret _, t3) =>
                  (Raise (SystemExit 1), t3 ++ [Printed Msg_deployment_failed])
              | (Raise e, t3) => (Raise e, t3)
              end
        | (Ret false, t2) => (Raise (SystemExit 1), t2)
        | (Raise e, t2) => (Raise e, t2)
        end
    | (Ret false, t1) => (Raise (SystemExit 1), t1)
    | (Raise e, t1) => (Raise e, t1)
    end.
Proof.
  unfold deployed, warned, built, checked.
  unfold main. unfold bind at 1 2 3. unfold print at 1 2 3. cbn [app].
  fold banner. unfold bind at 1.
  destruct (check_prerequisites os banner) as [[[|]|e1] t1]; try reflexivity.
  cbn [negb snd]. unfold bind at 1.
  destruct (compile_contract os t1) as [[[|]|e2] t2]; try reflexivity.
  cbn [negb snd].
  fold (private_key_of os) (mnemonic_of os) (owner_of os) (treasury_of os).
  destruct (negb (truthy (private_key_of os)) && negb (truthy (mnemonic_of os))).
  { unfold bind, print, sys_exit, raise. cbn. now rewrite <- app_assoc. }
  unfold bind at 1.
  destruct ((if negb (truthy (owner_of os)) || negb (truthy (treasury_of os))
             then warn_addresses else ret tt) t2) as [[[]|e] tw] eqn:W.
  2:{ exfalso. destruct (negb _ || negb _); cbv in W; discriminate W. }
  cbn [snd]. unfold bind at 1.
  destruct (deploy_contract os _ _ _ tw) as [[[[|c a]|]|e3] t3]; reflexivity.
Qed.

(** C7.  When the prerequisite checker returns [False], the run ends there
    with exit status 1: the trace of the run is the trace of the checker,
    and the build command is not in it. *)
Theorem failed_check_ends_run (os : OS) :
  fst (checked os) = Ret false ->
  run_script os = (1%Z, snd (checked os))
  /\ ~ In build_cmd (commands (snd (run_script os))).
Proof.
  intros H.
  assert (E : run_script os = (1%Z, snd (checked os))).
  { unfold run_script. rewrite main_unfold.
    destruct (checked os) as [r t1]. simpl in H. now subst r. }
  split; [exact E|].
  rewrite E. cbn [snd]. unfold checked.
  destruct (check_prerequisites_commands os banner) as (l & -> & I).
  cbn [banner commands app]. intros Hin.
  destruct (I _ Hin) as [B|[B|[B|[B|[]]]]]; vm_compute in B; discriminate B.
Qed.

Lemma failed_check_ends_run_witness :
  fst (run_script no_stylus) = 1%Z
  /\ ~ In build_cmd (commands (snd (run_script no_stylus))).
Proof.
  destruct (failed_check_ends_run no_stylus) as [E N]; [reflexivity|].
  split; [now rewrite E | exact N].
Defined.

(** *** The address scan *)

Definition no_space (w : str) : Prop := Forall (fun c => isspace c = false) w.

Lemma split_ws_from_words (s : str) :
  forall cur, no_space cur ->
  Forall (fun w => w <> [] /\ no_space w) (split_ws_from cur s).
Proof.
  induction s as [|c s IH]; intros cur Hcur; simpl.
  - destruct cur as [|d cur]; constructor; [|constructor].
    split.
    + intros E. apply (f_equal (@List.length _)) in E.
      rewrite length_rev in E. discriminate E.
    + now apply Forall_rev.
  - destruct (isspace c) eqn:Hc.
    + destruct cur as [|d cur]; [apply IH; constructor|].
      constructor; [|apply IH; constructor].
      split.
      * intros E. apply (f_equal (@List.length _)) in E.
        rewrite length_rev in E. discriminate E.
      * now apply Forall_rev.
    + apply IH. now constructor.
Qed.

Lemma split_ws_words (s : str) :
  Forall (fun w => w <> [] /\ no_space w) (split_ws s).
Proof. apply split_ws_from_words. constructor. Qed.

Lemma no_space_firstn (n : nat) (w : str) : no_space w -> no_space (firstn n w).
Proof.
  intros H. revert n. induction H as [|c w Hc H IH]; intros [|n]; simpl;
    try constructor; auto.
  apply IH.
Qed.

(** One turn of the loop on a line that is not selected: at most a print. *)
Lemma scan_lines_pass (line : str) (rest : list str) (t : trace) :
  selected line = false ->
  exists t', scan_lines (line :: rest) t = scan_lines rest t'
             /\ commands t' = commands t.
Proof.
  unfold selected. intros H. simpl.
  destruct (mentions_deployment line); [|now exists t].
  simpl in H. rewrite H. unfold bind, print.
  exists (t ++ [Printed (Msg_line line)]). split; [reflexivity|].
  apply commands_printed.
Qed.

Lemma scan_lines_skip (before rest : list str) :
  Forall (fun line => selected line = false) before ->
  forall t, exists t', scan_lines (before ++ rest) t = scan_lines rest t'
                       /\ commands t' = commands t.
Proof.
  induction 1 as [|line before Hl _ IH]; intros t.
  - now exists t.
  - destruct (scan_lines_pass line (before ++ rest) t Hl) as (t1 & E1 & C1).
    destruct (IH t1) as (t2 & E2 & C2).
    exists t2. split; [now rewrite <- app_comm_cons, E1 | congruence].
Qed.

(** One turn of the loop on a line from which an address is taken. *)
Lemma scan_lines_hit (line part word : str) (rest : list str) (t : trace) :
  selected line = true ->
  nth_error (split (lit "0x") line) 1 = Some part ->
  nth_error (split_ws part) 0 = Some word ->
  scan_lines (line :: rest) t
    = (Ret (Some (lit "0x" ++ slice_to 40 word)), t ++ [Printed (Msg_line line)]).
Proof.
  unfold selected. intros H Hp Hw. apply andb_prop in H as [Hm Hx].
  simpl. rewrite Hm, Hx. unfold bind, print, getitem.
  assert (Hlen : (1 <? List.length (split (lit "0x") line))%nat = true).
  { apply Nat.ltb_lt. apply nth_error_Some. congruence. }
  rewrite Hlen. rewrite Hp. unfold ret. now rewrite Hw.
Qed.

(** The text returned by the loop. *)
Lemma scan_lines_address (lines : list str) :
  forall t t' a,
  scan_lines lines t = (Ret (Some a), t') ->
  exists w, a = lit "0x" ++ w
            /\ (1 <= List.length w <= 40)%nat
            /\ no_space w.
Proof.
  induction lines as [|line rest IH]; intros t t' a; simpl.
  - unfold bind, print, ret. discriminate.
  - destruct (mentions_deployment line); [|apply IH].
    unfold bind at 1. unfold print at 1.
    destruct (contains (lit "0x") line); [|apply IH].
    destruct (1 <? List.length (split (lit "0x") line))%nat; [|apply IH].
    unfold bind, getitem, ret, raise.
    destruct (nth_error (split (lit "0x") line) 1) as [part|]; [|discriminate].
    destruct (nth_error (split_ws part) 0) as [word|] eqn:Hw; [|discriminate].
    intros E. injection E as <- _.
    apply nth_error_In in Hw.
    pose proof (split_ws_words part) as F.
    rewrite Forall_forall in F. destruct (F _ Hw) as [Hne Hns].
    exists (slice_to 40 word). split; [reflexivity|].
    unfold slice_to. split; [|now apply no_space_firstn].
    rewrite length_firstn. destruct word as [|c w]; [congruence|].
    cbn [List.length]. lia.
Qed.

(** An address returned by the deployer was returned by the loop. *)
Lemma deploy_contract_scanned
    (os : OS) (pk mn : option str) (rpc_url : str) (t : trace) (a : str) :
  fst (deploy_contract os pk mn rpc_url t) = Ret (Some a) ->
  exists lines u u', scan_lines lines u = (Ret (Some a), u').
Proof.
  unfold deploy_contract, bind, print, try_except.
  destruct (negb (truthy pk) && negb (truthy mn)); [intros E; discriminate E|].
  destruct (run os _ _) as [[r|e] t1].
  - destruct (scan_lines _ _) as [[o|e] t2] eqn:S.
    + intros E. injection E as ->. eauto.
    + destruct e; intros E; discriminate E.
  - destruct e; intros E; discriminate E.
Qed.

(** The address is never the empty string, so [main] takes it for true. *)
Lemma deploy_contract_truthy
    (os : OS) (pk mn : option str) (rpc_url : str) (t : trace) (a : str) :
  fst (deploy_contract os pk mn rpc_url t) = Ret (Some a) ->
  exists c a', a = c :: a'.
Proof.
  intros H. apply deploy_contract_scanned in H as (lines & u & u' & H).
  apply scan_lines_address in H as (w & -> & _). simpl. eauto.
Qed.

(** The loop ends in one of three ways: with an address, with [None] after
    the complaint that no address could be parsed, or with [IndexError]. *)
Lemma scan_lines_outcome (lines : list str) :
  forall t,
  (exists a t', scan_lines lines t = (Ret (Some a), t'))
  \/ (exists t', scan_lines lines t = (Ret None, t' ++ [Printed Msg_cannot_parse]))
  \/ (exists t', scan_lines lines t = (Raise IndexError, t')).
Proof.
  induction lines as [|line rest IH]; intros t; simpl.
  - right; left. now exists t.
  - destruct (mentions_deployment line); [|apply IH].
    unfold bind at 1. unfold print at 1.
    destruct (contains (lit "0x") line); [|apply IH].
    destruct (1 <? List.length (split (lit "0x") line))%nat; [|apply IH].
    unfold bind, getitem, ret, raise.
    destruct (nth_error (split (lit "0x") line) 1) as [part|].
    + destruct (nth_error (split_ws part) 0) as [word|].
      * left. eexists. eexists. reflexivity.
      * right; right. eexists. reflexivity.
    + right; right. eexists. reflexivity.
Qed.

(** C3, as the code has it.  When a command of the deployer succeeds and
    the first selected line of its output is the line of the scenario, the
    deployer returns the forty characters after "0x" of that line, with
    "0x" in front; the rest of the line is cut off. *)
Theorem deployed_line_address
    (os : OS) (pk mn : option str) (rpc_url : str) (t : trace)
    (out err : str) (before after : list str) :
  truthy pk || truthy mn = true ->
  exec os (commands t) (deploy_cmd pk mn rpc_url) = Exited 0 out err ->
  split newline (out ++ err) = before ++ deployed_line :: after ->
  Forall (fun line => selected line = false) before ->
  fst (deploy_contract os pk mn rpc_url t) = Ret (Some deployed_address).
Proof.
  intros Hc Hx Hs Hb.
  unfold deploy_contract, bind, print, try_except.
  replace (negb (truthy pk) && negb (truthy mn)) with false
    by (destruct (truthy pk), (truthy mn); simpl in *; congruence).
  rewrite (run_succeeds os _ _ out err) by (now rewrite !commands_printed).
  cbn [fst snd]. rewrite Hs.
  match goal with |- context [scan_lines _ ?u] =>
    destruct (scan_lines_skip before (deployed_line :: after) Hb u) as (t' & -> & _)
  end.
  rewrite (scan_lines_hit deployed_line
             (lit "ABCDEF0123456789ABCDEF0123456789ABCDEF01 (gas used: 500000)")
             (lit "ABCDEF0123456789ABCDEF0123456789ABCDEF01"))
    by (vm_compute; reflexivity).
  reflexivity.
Qed.

Lemma deployed_line_address_witness :
  fst (deploy_contract (healthy verbose_output 0 key_only)
         (Some (lit "0xkey")) None ARBITRUM_SEPOLIA_RPC [])
    = Ret (Some deployed_address).
Proof.
  apply (deployed_line_address (healthy verbose_output 0 key_only)
           (Some (lit "0xkey")) None ARBITRUM_SEPOLIA_RPC []
           verbose_output [] [lit "contract size: 8.9 KB"]
           [lit "deployment tx hash: 0xa55efc05"]).
  - reflexivity.
  - reflexivity.
  - vm_compute. reflexivity.
  - repeat constructor.
Defined.

(** C3, as the specification words it, fails: the output below contains
    the line of the scenario, after a line that is selected too, and the
    deployer returns the address of that earlier line. *)
Lemma deployed_line_shadowed :
  In deployed_line (split newline shadowed_output)
  /\ fst (deploy_contract (healthy shadowed_output 0 key_only)
            (Some (lit "0xkey")) None ARBITRUM_SEPOLIA_RPC [])
     = Ret (Some (lit "0x1234"))
  /\ lit "0x1234" <> deployed_address.
Proof.
  split; [right; left; vm_compute; reflexivity|].
  split; [vm_compute; reflexivity | discriminate].
Qed.

(** C5.  The loop is not total.  On the output "Contract deployed at: 0x"
    the line is selected, nothing follows "0x", the list of words is empty
    and taking its first element raises [IndexError]; the deployer does not
    handle it, and the run ends with exit status 1. *)
Theorem deploy_contract_bare_prefix :
  fst (deploy_contract (healthy bare_output 0 key_only)
         (Some (lit "0xkey")) None ARBITRUM_SEPOLIA_RPC [])
    = Raise IndexError
  /\ fst (run_script (healthy bare_output 0 key_only)) = 1%Z.
Proof. split; vm_compute; reflexivity. Qed.

(** *** Exceptions that leave a stage *)

(** The exceptions no stage handles: they end the run with a traceback. *)
Definition crash (e : exn) : Prop := e = FileNotFoundError \/ e = IndexError.

Lemma crash_status {A} (e : exn) : crash e -> exit_status (@Raise A e) = 1%Z.
Proof. now intros [-> | ->]. Qed.

Ltac run_cases :=
  repeat match goal with
         | |- context [exec ?os ?h ?c] =>
             destruct (exec os h c) as [[|?|?] ? ?|]; cbn
         | |- context [if ?b then _ else _] => destruct b; cbn
         | |- context [match stat_size ?os ?h ?p with _ => _ end] =>
             destruct (stat_size os h p); cbn
         end.

Lemma check_target_raises (os : OS) (t : trace) (e : exn) :
  fst (check_target os t) = Raise e -> e = FileNotFoundError.
Proof.
  unfold check_target, try_except, bind, run, print, ret.
  run_cases; intros E; congruence.
Qed.

Lemma check_prerequisites_raises (os : OS) (t : trace) (e : exn) :
  fst (check_prerequisites os t) = Raise e -> crash e.
Proof.
  rewrite check_prerequisites_unfold.
  destruct (check_rust_spec os (t ++ [Printed Msg_checking])) as [F1 _].
  rewrite (surjective_run (check_rust os _)), F1.
  destruct (succeeds _); [|intros E; discriminate E].
  destruct (check_stylus_spec os (snd (check_rust os (t ++ [Printed Msg_checking]))))
    as [F2 _].
  rewrite (surjective_run (check_stylus os _)), F2.
  destruct (succeeds _); [|intros E; discriminate E].
  destruct (check_target os _) as [[ok|e3] t3] eqn:T; [intros E; discriminate E|].
  intros E. injection E as <-. left.
  apply (f_equal fst) in T. now apply check_target_raises in T.
Qed.

Lemma compile_contract_raises (os : OS) (t : trace) (e : exn) :
  fst (compile_contract os t) = Raise e -> crash e.
Proof.
  unfold compile_contract, try_except, bind, run, path_size, print, ret.
  run_cases; intros E; try discriminate E. injection E as <-. now left.
Qed.

Lemma scan_lines_raises (lines : list str) (t : trace) (e : exn) :
  fst (scan_lines lines t) = Raise e -> e = IndexError.
Proof.
  destruct (scan_lines_outcome lines t) as [(a & t' & ->)|[(t' & ->)|(t' & ->)]];
    cbn [fst]; intros E; congruence.
Qed.

Lemma deploy_contract_raises
    (os : OS) (pk mn : option str) (rpc_url : str) (t : trace) (e : exn) :
  fst (deploy_contract os pk mn rpc_url t) = Raise e -> crash e.
Proof.
  unfold deploy_contract, bind, print, try_except.
  destruct (negb (truthy pk) && negb (truthy mn)); [intros E; discriminate E|].
  unfold run at 1.
  destruct (exec os _ _) as [[|p|p] out err|]; cbn [fst snd];
    try (intros E; discriminate E).
  - destruct (scan_lines _ _) as [[o|e'] t2] eqn:S; [intros E; discriminate E|].
    assert (e' = IndexError) as -> by (apply (scan_lines_raises _ _ _ (f_equal fst S))).
    intros E. injection E as <-. now right.
  - intros E. injection E as <-. now left.
Qed.

(** The initializer returns [True] when its command exits with status
    zero, returns [False] when it exits with another status, and lets the
    error through when the command cannot be started. *)
Lemma initialize_contract_result
    (os : OS) (contract owner treasury : str) (pk mn : option str) (rpc_url : str)
    (t : trace) :
  fst (initialize_contract os contract owner treasury pk mn rpc_url t)
  = match exec os (commands t) (init_cmd contract owner treasury pk mn rpc_url) with
    | Exited rc _ _ => Ret (Z.eqb rc 0)
    | NoSuchFile => Raise FileNotFoundError
    end.
Proof.
  unfold initialize_contract, try_except, bind, run, print, ret.
  rewrite !commands_printed.
  now destruct (exec os (commands t) _) as [[|p|p] out err|].
Qed.

(** *** The exit status *)

Lemma run_script_status (os : OS) :
  fst (run_script os) = exit_status (fst (main os [])).
Proof. unfold run_script. now destruct (main os []). Qed.

(** The last step of [main] fails only when the initializer is entered and
    fails to return. *)
Lemma finish_result
    (os : OS) (contract : str) (ow tw pk mn : option str) (t : trace) :
  fst (finish os contract ow tw pk mn t)
  = match ow, tw with
    | Some (o :: ow'), Some (a :: tw') =>
        match fst (initialize_contract os contract (o :: ow') (a :: tw') pk mn
                     ARBITRUM_SEPOLIA_RPC t) with
        | Ret _ => Ret tt
        | Raise e => Raise e
        end
    | _, _ => Ret tt
    end.
Proof.
  unfold finish.
  destruct ow as [[|o ow]|]; try reflexivity.
  destruct tw as [[|a tw]|]; try reflexivity.
  unfold bind at 1.
  destruct (initialize_contract os contract (o :: ow) (a :: tw) pk mn
              ARBITRUM_SEPOLIA_RPC t) as [[[|]|e] t']; reflexivity.
Qed.

Lemma finish_status
    (os : OS) (contract : str) (ow tw pk mn : option str) (t : trace) :
  (exit_status (fst (finish os contract ow tw pk mn t)) = 0%Z <->
   forall owner treasury,
     ow = Some owner -> tw = Some treasury -> owner <> [] -> treasury <> [] ->
     exists ok,
       fst (initialize_contract os contract owner treasury pk mn
              ARBITRUM_SEPOLIA_RPC t) = Ret ok)
  /\ (exit_status (fst (finish os contract ow tw pk mn t)) = 0%Z
      \/ exit_status (fst (finish os contract ow tw pk mn t)) = 1%Z).
Proof.
  rewrite finish_result.
  destruct ow as [[|o ow]|]; try (split; [split; [intros _ ? ? ? ? ? ?; congruence
                                                 | reflexivity] | now left]).
  destruct tw as [[|a tw]|]; try (split; [split; [intros _ ? ? ? ? ? ?; congruence
                                                 | reflexivity] | now left]).
  rewrite initialize_contract_result.
  destruct (exec os (commands t) _) as [rc out err|] eqn:X.
  - split; [|now left]. split; [|reflexivity].
    intros _ owner treasury Ho Ht _ _.
    injection Ho as <-. injection Ht as <-.
    rewrite initialize_contract_result, X. now exists (Z.eqb rc 0).
  - split; [|now right].
    split; [discriminate|].
    intros H. destruct (H (o :: ow) (a :: tw)) as [ok E]; try congruence.
    rewrite initialize_contract_result, X in E. discriminate E.
Qed.

(** The exit status in terms of what the stages return. *)
Lemma exit_status_of_stages (os : OS) :
  (fst (run_script os) = 0%Z <->
   fst (checked os) = Ret true
   /\ fst (built os) = Ret true
   /\ truthy (private_key_of os) || truthy (mnemonic_of os) = true
   /\ exists contract,
        fst (deployed os) = Ret (Some contract)
        /\ forall owner treasury,
             owner_of os = Some owner -> treasury_of os = Some treasury ->
             owner <> [] -> treasury <> [] ->
             exists ok, fst (initialized os contract owner treasury) = Ret ok)
  /\ (fst (run_script os) = 0%Z \/ fst (run_script os) = 1%Z).
Proof.
  rewrite run_script_status, main_unfold.
  destruct (checked os) as [[[|]|e1] t1] eqn:E1; cbn [fst].
  2:{ split; [|now right]. split; [discriminate|]. intros (H & _). discriminate H. }
  2:{ assert (C : crash e1)
        by (apply (check_prerequisites_raises os banner); unfold checked in E1;
            now rewrite E1).
      rewrite (crash_status e1 C).
      split; [|now right]. split; [discriminate|]. intros (H & _). discriminate H. }
  destruct (built os) as [[[|]|e2] t2] eqn:E2; cbn [fst].
  2:{ split; [|now right]. split; [discriminate|]. intros (_ & H & _). discriminate H. }
  2:{ assert (C : crash e2)
        by (apply (compile_contract_raises os (snd (checked os))); unfold built in E2;
            now rewrite E2).
      rewrite (crash_status e2 C).
      split; [|now right]. split; [discriminate|]. intros (_ & H & _). discriminate H. }
  destruct (truthy (private_key_of os) || truthy (mnemonic_of os)) eqn:K.
  2:{ apply orb_false_elim in K as [-> ->]. cbn.
      split; [|now right]. split; [discriminate|]. intros (_ & _ & H & _). discriminate H. }
  replace (negb (truthy (private_key_of os)) && negb (truthy (mnemonic_of os)))
    with false
    by (destruct (truthy (private_key_of os)), (truthy (mnemonic_of os));
        simpl in *; congruence).
  destruct (deployed os) as [[[[|c a]|]|e3] t3] eqn:E3; cbn [fst].
  - split; [|now right]. split; [discriminate|].
    intros (_ & _ & _ & contract & H & _). injection H as <-.
    assert (D : fst (deployed os) = Ret (Some [])) by now rewrite E3.
    apply deploy_contract_truthy in D as (c & a & D). discriminate D.
  - destruct (finish_status os (c :: a) (owner_of os) (treasury_of os)
                (private_key_of os) (mnemonic_of os)
                (t3 ++ [Printed (Msg_deployed_at (c :: a))])) as [F B].
    split; [|exact B].
    rewrite F. unfold initialized. rewrite E3. cbn [snd].
    split.
    + intros H. repeat split. exists (c :: a). split; [reflexivity | exact H].
    + intros (_ & _ & _ & contract & H & I). injection H as <-. exact I.
  - split; [|now right]. split; [discriminate|].
    intros (_ & _ & _ & contract & H & _). discriminate H.
  - assert (C : crash e3)
      by (apply (deploy_contract_raises os (private_key_of os) (mnemonic_of os)
                   ARBITRUM_SEPOLIA_RPC (warned os)); unfold deployed in E3;
          now rewrite E3).
    rewrite (crash_status e3 C).
    split; [|now right]. split; [discriminate|].
    intros (_ & _ & _ & contract & H & _). discriminate H.
Qed.

(** The initializer returns, with [True] or with [False], exactly when its
    command runs to an exit status, whatever the status. *)
Lemma initialize_contract_returns_iff
    (os : OS) (contract owner treasury : str) (pk mn : option str) (rpc_url : str)
    (t : trace) :
  (exists ok,
     fst (initialize_contract os contract owner treasury pk mn rpc_url t) = Ret ok)
  <-> exists rc out err,
        exec os (commands t) (init_cmd contract owner treasury pk mn rpc_url)
        = Exited rc out err.
Proof.
  rewrite initialize_contract_result.
  destruct (exec os (commands t) _) as [rc out err|].
  - split; [intros _; now exists rc, out, err | intros _; now exists (Z.eqb rc 0)].
  - split; [intros (ok & E); discriminate E | intros (rc & out & err & E); discriminate E].
Qed.

(** X18.  The exit status is 0 or 1.  It is 0 exactly when the prerequisite
    checker returns [True], the builder returns [True], a credential is
    set, the deployer returns an address and, if owner and treasury are
    both set, the call command runs to an exit status, zero or not.  So a
    call command that exits with a non-zero status leaves the exit status
    of the run at 0. *)
Theorem main_exit_status (os : OS) :
  (fst (run_script os) = 0%Z <->
   fst (checked os) = Ret true
   /\ fst (built os) = Ret true
   /\ truthy (private_key_of os) || truthy (mnemonic_of os) = true
   /\ exists contract,
        fst (deployed os) = Ret (Some contract)
        /\ forall owner treasury,
             owner_of os = Some owner -> treasury_of os = Some treasury ->
             owner <> [] -> treasury <> [] ->
             exists rc out err,
               exec os (commands (snd (deployed os)))
                 (init_cmd contract owner treasury
                    (private_key_of os) (mnemonic_of os) ARBITRUM_SEPOLIA_RPC)
               = Exited rc out err)
  /\ (fst (run_script os) = 0%Z \/ fst (run_script os) = 1%Z).
Proof.
  destruct (exit_status_of_stages os) as [S B]. split; [|exact B].
  rewrite S.
  assert (R : forall contract owner treasury,
             (exists ok, fst (initialized os contract owner treasury) = Ret ok)
             <-> exists rc out err,
                   exec os (commands (snd (deployed os)))
                     (init_cmd contract owner treasury
                        (private_key_of os) (mnemonic_of os) ARBITRUM_SEPOLIA_RPC)
                   = Exited rc out err).
  { intros contract owner treasury. unfold initialized.
    rewrite initialize_contract_returns_iff. now rewrite commands_printed. }
  split; intros (H1 & H2 & H3 & contract & H4 & H5);
    (split; [exact H1|]; split; [exact H2|]; split; [exact H3|]);
    exists contract; (split; [exact H4|]);
    intros owner treasury Ho Ht Hno Hnt; apply R; now apply H5.
Qed.

Lemma main_exit_status_witness :
  fst (run_script (healthy deployed_line 1 key_and_addresses)) = 0%Z.
Proof.
  apply (proj2 (proj1 (main_exit_status (healthy deployed_line 1 key_and_addresses)))).
  split; [reflexivity|]. split; [reflexivity|]. split; [reflexivity|].
  exists deployed_address. split; [vm_compute; reflexivity|].
  intros owner treasury Ho Ht _ _.
  vm_compute in Ho, Ht. injection Ho as <-. injection Ht as <-.
  exists 1%Z, [], (lit "execution reverted"). vm_compute. reflexivity.
Defined.

(** C1.  The driver does not keep the exit status at 0 through every
    failure of the initializer.  On the system below the prerequisite
    check, the build and the deployment have all succeeded and a credential
    is set; the call command cannot be started, the initializer lets the
    [FileNotFoundError] through (it handles [CalledProcessError] only) and
    the exit status is 1. *)
Theorem main_exit_status_after_lost_tool :
  fst (checked cargo_vanishes) = Ret true
  /\ fst (built cargo_vanishes) = Ret true
  /\ truthy (private_key_of cargo_vanishes) = true
  /\ fst (deployed cargo_vanishes) = Ret (Some deployed_address)
  /\ fst (initialized cargo_vanishes deployed_address (lit "0x01") (lit "0x02"))
       = Raise FileNotFoundError
  /\ fst (run_script cargo_vanishes) = 1%Z.
Proof. repeat split; vm_compute; reflexivity. Qed.

(** ** Further properties of the stages *)

(** *** The build-target check *)

(** What the third check returns and which commands it has started, read
    from the answers of the system to the list command (asked twice) and to
    the install command. *)
Definition target_verdict (os : OS) (h : list argv) : result bool * list argv :=
  match exec os h target_list with
  | Exited 0%Z _ _ =>
      match exec os (h ++ [target_list]) target_list with
      | Exited 0%Z out _ =>
          if contains wasm32 out
          then (Ret true, h ++ [target_list; target_list])
          else
            match exec os (h ++ [target_list; target_list]) target_add with
            | Exited 0%Z _ _ => (Ret true, h ++ [target_list; target_list; target_add])
            | Exited _ _ _ => (Ret false, h ++ [target_list; target_list; target_add])
            | NoSuchFile =>
                (Raise FileNotFoundError, h ++ [target_list; target_list; target_add])
            end
      | Exited _ _ _ => (Ret false, h ++ [target_list; target_list])
      | NoSuchFile => (Raise FileNotFoundError, h ++ [target_list; target_list])
      end
  | Exited _ _ _ => (Ret false, h ++ [target_list])
  | NoSuchFile => (Raise FileNotFoundError, h ++ [target_list])
  end.

Ltac answer :=
  history;
  match goal with
  | |- context [exec ?os ?h ?c] =>
      destruct (exec os h c) as [[|?|?] ? ?|]; cbn [fst snd]
  end.

Lemma check_target_spec (os : OS) (t : trace) :
  (fst (check_target os t), commands (snd (check_target os t)))
  = target_verdict os (commands t).
Proof.
  unfold check_target, target_verdict, except_called, try_except, bind, run, print, ret.
  answer; try (history; reflexivity).
  answer; try (history; reflexivity).
  destruct (contains wasm32 _); cbn [negb fst snd]; [history; reflexivity|].
  answer; history; reflexivity.
Qed.

(** *** The prerequisite checker, in full *)

Definition check_verdict (os : OS) (h : list argv) : result bool * list argv :=
  if succeeds (exec os h rustc_version) then
    if succeeds (exec os (h ++ [rustc_version]) stylus_version) then
      target_verdict os (h ++ [rustc_version; stylus_version])
    else (Ret false, h ++ [rustc_version; stylus_version])
  else (Ret false, h ++ [rustc_version]).

Lemma check_prerequisites_spec (os : OS) (t : trace) :
  (fst (check_prerequisites os t), commands (snd (check_prerequisites os t)))
  = check_verdict os (commands t).
Proof.
  rewrite check_prerequisites_unfold. unfold check_verdict.
  destruct (check_rust_spec os (t ++ [Printed Msg_checking])) as [F1 C1].
  rewrite commands_printed in F1, C1.
  rewrite (surjective_run (check_rust os _)), F1.
  destruct (succeeds (exec os (commands t) rustc_version)); cbn [fst snd];
    [|now rewrite C1].
  destruct (check_stylus_spec os (snd (check_rust os (t ++ [Printed Msg_checking]))))
    as [F2 C2].
  rewrite C1 in F2, C2.
  rewrite (surjective_run (check_stylus os _)), F2.
  destruct (succeeds (exec os (commands t ++ [rustc_version]) stylus_version));
    cbn [fst snd]; [|now rewrite C2, <- app_assoc].
  rewrite <- app_assoc in C2. cbn [app] in C2.
  rewrite <- C2, <- check_target_spec.
  now destruct (check_target os _) as [[ok|e] t3].
Qed.

(** X1.  The checker returns [True] exactly when the compiler and the
    deployment tool answer their version queries with status zero, the list
    of installed targets is obtained twice with status zero, and either the
    second list names the wasm32 target or the install command exits with
    status zero. *)
Theorem check_prerequisites_true_iff (os : OS) (t : trace) :
  let h := commands t in
  fst (check_prerequisites os t) = Ret true <->
  succeeds (exec os h rustc_version) = true
  /\ succeeds (exec os (h ++ [rustc_version]) stylus_version) = true
  /\ succeeds (exec os (h ++ [rustc_version; stylus_version]) target_list) = true
  /\ exists out err,
       exec os (h ++ [rustc_version; stylus_version; target_list]) target_list
         = Exited 0 out err
       /\ (contains wasm32 out = true
           \/ succeeds (exec os (h ++ [rustc_version; stylus_version;
                                       target_list; target_list]) target_add) = true).
Proof.
  intros h.
  pose proof (f_equal fst (check_prerequisites_spec os t)) as S.
  cbn [fst] in S. rewrite S. fold h. clear S.
  unfold check_verdict, target_verdict.
  destruct (succeeds (exec os h rustc_version));
    [|split; [discriminate | intros (H & _); discriminate H]].
  destruct (succeeds (exec os (h ++ [rustc_version]) stylus_version));
    [|split; [discriminate | intros (_ & H & _); discriminate H]].
  rewrite <- !app_assoc. cbn [app].
  destruct (exec os (h ++ [rustc_version; stylus_version]) target_list)
    as [[|p|p] o1 e1|]; cbn [fst succeeds];
    try (split; [discriminate | intros (_ & _ & H & _); discriminate H]).
  destruct (exec os (h ++ [rustc_version; stylus_version; target_list]) target_list)
    as [[|p|p] o2 e2|]; cbn [fst];
    try (split; [discriminate | intros (_ & _ & _ & ? & ? & H & _); discriminate H]).
  destruct (contains wasm32 o2) eqn:W; cbn [fst].
  - split; [intros _|reflexivity]. repeat (split; [reflexivity|]).
    exists o2, e2. split; [reflexivity | now left].
  - destruct (exec os (h ++ [rustc_version; stylus_version; target_list; target_list])
                target_add) as [[|p|p] o3 e3|]; cbn [fst succeeds].
    + split; [intros _|reflexivity]. repeat (split; [reflexivity|]).
      exists o2, e2. split; [reflexivity | now right].
    + split; [discriminate|].
      intros (_ & _ & _ & out & err & E & [H|H]); [|discriminate H].
      injection E as <- _. congruence.
    + split; [discriminate|].
      intros (_ & _ & _ & out & err & E & [H|H]); [|discriminate H].
      injection E as <- _. congruence.
    + split; [discriminate|].
      intros (_ & _ & _ & out & err & E & [H|H]); [|discriminate H].
      injection E as <- _. congruence.
Qed.

(** X2.  A missing [rustup] is not reported like a missing compiler or a
    missing deployment tool.  When the two version queries have succeeded
    and the list command cannot be started because [rustup] is not found,
    the checker does not return [False]: [FileNotFoundError] leaves it,
    since the third [try] handles [CalledProcessError] only.  When the list
    command is started and exits with a non-zero status, the checker
    returns [False]. *)
Theorem missing_rustup_escapes (os : OS) (t : trace) :
  let h := commands t in
  succeeds (exec os h rustc_version) = true ->
  succeeds (exec os (h ++ [rustc_version]) stylus_version) = true ->
  (exec os (h ++ [rustc_version; stylus_version]) target_list = NoSuchFile ->
   fst (check_prerequisites os t) = Raise FileNotFoundError
   /\ commands (snd (check_prerequisites os t))
      = h ++ [rustc_version; stylus_version; target_list])
  /\ (forall rc out err,
        exec os (h ++ [rustc_version; stylus_version]) target_list
          = Exited rc out err ->
        rc <> 0%Z ->
        fst (check_prerequisites os t) = Ret false).
Proof.
  intros h Hr Hs.
  pose proof (check_prerequisites_spec os t) as S. fold h in S.
  unfold check_verdict, target_verdict in S. rewrite Hr, Hs in S.
  rewrite <- !app_assoc in S. cbn [app] in S.
  split.
  - intros E. rewrite E in S. now injection S as -> ->.
  - intros rc out err E Hrc. rewrite E in S.
    destruct rc as [|p|p]; [congruence| |]; now injection S as -> _.
Qed.

Lemma missing_rustup_escapes_witness :
  fst (check_prerequisites no_rustup []) = Raise FileNotFoundError.
Proof.
  exact (proj1 (proj1 (missing_rustup_escapes no_rustup [] eq_refl eq_refl) eq_refl)).
Defined.

Lemma check_prerequisites_true_iff_witness :
  fst (check_prerequisites missing_target []) = Ret true.
Proof.
  apply (proj2 (check_prerequisites_true_iff missing_target [])).
  repeat (split; [reflexivity|]).
  exists (lit "x86_64-unknown-linux-gnu" ++ newline), [].
  split; [reflexivity | now right].
Defined.

Ltac not_among H :=
  cbn [In] in H;
  repeat (destruct H as [H|H]; [vm_compute in H; discriminate H|]);
  try contradiction.

(** X3.  The install command is an automatic repair: the checker starts it
    exactly when the two version queries and the two list commands exit
    with status zero and the second list does not name the wasm32 target.
    In particular it is not started when the target is already listed. *)
Theorem target_add_started_iff (os : OS) (t : trace) :
  let h := commands t in
  exists l,
    commands (snd (check_prerequisites os t)) = h ++ l
    /\ (In target_add l <->
        succeeds (exec os h rustc_version) = true
        /\ succeeds (exec os (h ++ [rustc_version]) stylus_version) = true
        /\ succeeds (exec os (h ++ [rustc_version; stylus_version]) target_list) = true
        /\ exists out err,
             exec os (h ++ [rustc_version; stylus_version; target_list]) target_list
               = Exited 0 out err
             /\ contains wasm32 out = false).
Proof.
  intros h.
  pose proof (f_equal snd (check_prerequisites_spec os t)) as S.
  cbn [snd] in S. rewrite S. fold h. clear S.
  unfold check_verdict, target_verdict.
  destruct (succeeds (exec os h rustc_version)).
  2:{ exists [rustc_version]. split; [reflexivity|].
      split; [intros H; not_among H | intros (H & _); discriminate H]. }
  destruct (succeeds (exec os (h ++ [rustc_version]) stylus_version)).
  2:{ exists [rustc_version; stylus_version]. split; [reflexivity|].
      split; [intros H; not_among H | intros (_ & H & _); discriminate H]. }
  rewrite <- !app_assoc. cbn [app].
  destruct (exec os (h ++ [rustc_version; stylus_version]) target_list)
    as [[|p|p] o1 e1|]; cbn [snd succeeds].
  2,3,4: (exists [rustc_version; stylus_version; target_list]; split; [reflexivity|];
          split; [intros H; not_among H | intros (_ & _ & H & _); discriminate H]).
  destruct (exec os (h ++ [rustc_version; stylus_version; target_list]) target_list)
    as [[|p|p] o2 e2|]; cbn [snd].
  2,3,4: (exists [rustc_version; stylus_version; target_list; target_list];
          split; [reflexivity|];
          split; [intros H; not_among H
                 | intros (_ & _ & _ & ? & ? & H & _); discriminate H]).
  destruct (contains wasm32 o2) eqn:W; cbn [snd].
  { exists [rustc_version; stylus_version; target_list; target_list].
    split; [reflexivity|].
    split; [intros H; not_among H|].
    intros (_ & _ & _ & out & err & E & C). injection E as <- _. congruence. }
  exists [rustc_version; stylus_version; target_list; target_list; target_add].
  split.
  { now destruct (exec os _ target_add) as [[|p|p] o3 e3|]. }
  split; [intros _|intros _; cbn; auto 6].
  repeat (split; [reflexivity|]). now exists o2, e2.
Qed.

Lemma target_add_started_iff_witness :
  In target_add (commands (snd (check_prerequisites missing_target []))).
Proof.
  destruct (target_add_started_iff missing_target []) as (l & E & I).
  rewrite E. apply I.
  repeat (split; [reflexivity|]).
  now exists (lit "x86_64-unknown-linux-gnu" ++ newline), [].
Defined.

(** *** The commands of a run *)

Lemma compile_contract_commands (os : OS) (t : trace) :
  commands (snd (compile_contract os t)) = commands t ++ [build_cmd].
Proof.
  unfold compile_contract, try_except, bind, run, path_size, print, ret.
  destruct (exec os _ build_cmd) as [[|p|p] out err|]; cbn [fst snd].
  - destruct (stat_size os _ wasm_file); cbn [fst snd]; now history.
  - now history.
  - now history.
  - now history.
Qed.

Lemma deploy_contract_commands
    (os : OS) (pk mn : option str) (rpc_url : str) (t : trace) :
  commands (snd (deploy_contract os pk mn rpc_url t))
  = if truthy pk || truthy mn then commands t ++ [deploy_cmd pk mn rpc_url]
    else commands t.
Proof.
  destruct (truthy pk || truthy mn) eqn:K; [now apply deploy_started|].
  apply orb_false_elim in K as [Kp Km].
  unfold deploy_contract, bind, print, ret. rewrite Kp, Km. cbn. now history.
Qed.

Lemma initialize_contract_commands
    (os : OS) (contract owner treasury : str) (pk mn : option str) (rpc_url : str)
    (t : trace) :
  commands (snd (initialize_contract os contract owner treasury pk mn rpc_url t))
  = commands t ++ [init_cmd contract owner treasury pk mn rpc_url].
Proof.
  unfold initialize_contract, try_except, bind, run, print, ret.
  destruct (exec os _ _) as [[|p|p] out err|]; cbn [fst snd]; now history.
Qed.

Lemma finish_commands
    (os : OS) (contract : str) (ow tw pk mn : option str) (t : trace) :
  commands (snd (finish os contract ow tw pk mn t))
  = match ow, tw with
    | Some (o :: ow'), Some (a :: tw') =>
        commands t ++ [init_cmd contract (o :: ow') (a :: tw') pk mn
                         ARBITRUM_SEPOLIA_RPC]
    | _, _ => commands t
    end.
Proof.
  unfold finish.
  destruct ow as [[|o ow]|]; try (unfold bind, print; cbn; now history).
  destruct tw as [[|a tw]|]; try (unfold bind, print; cbn; now history).
  unfold bind at 1.
  pose proof (initialize_contract_commands os contract (o :: ow) (a :: tw) pk mn
                ARBITRUM_SEPOLIA_RPC t) as C.
  destruct (initialize_contract os contract (o :: ow) (a :: tw) pk mn
              ARBITRUM_SEPOLIA_RPC t) as [[[|]|e] t']; cbn [snd] in C |- *.
  - unfold report_complete, bind, print. cbn. history. exact C.
  - unfold bind, print. cbn. history. exact C.
  - exact C.
Qed.

Lemma checked_commands (os : OS) :
  incl (commands (snd (checked os)))
       [rustc_version; stylus_version; target_list; target_add].
Proof.
  unfold checked.
  destruct (check_prerequisites_commands os banner) as (l & -> & I). exact I.
Qed.

Lemma built_commands (os : OS) :
  commands (snd (built os)) = commands (snd (checked os)) ++ [build_cmd].
Proof. apply compile_contract_commands. Qed.

Lemma warned_commands (os : OS) : commands (warned os) = commands (snd (built os)).
Proof.
  unfold warned.
  destruct (negb (truthy (owner_of os)) || negb (truthy (treasury_of os)));
    [|reflexivity].
  unfold warn_addresses, bind, print. cbn. now history.
Qed.

Lemma deployed_commands (os : OS) :
  truthy (private_key_of os) || truthy (mnemonic_of os) = true ->
  commands (snd (deployed os))
  = commands (snd (checked os))
    ++ [build_cmd;
        deploy_cmd (private_key_of os) (mnemonic_of os) ARBITRUM_SEPOLIA_RPC].
Proof.
  intros K. unfold deployed. rewrite deploy_contract_commands, K.
  now rewrite warned_commands, built_commands, <- app_assoc.
Qed.

Lemma run_script_trace (os : OS) : snd (run_script os) = snd (main os []).
Proof. unfold run_script. now destruct (main os []). Qed.

(** X4.  In every run the commands come in the order of the stages and each of
    the build, deploy and call commands is started at most once: first the
    commands of the prerequisite check, then the build command, then the
    deploy command, then the call command.  The call command carries the
    address the deployer returned and the two addresses of the environment. *)
Theorem run_commands_in_order (os : OS) :
  let pk := private_key_of os in
  let mn := mnemonic_of os in
  let deploy := deploy_cmd pk mn ARBITRUM_SEPOLIA_RPC in
  exists l tail,
    commands (snd (run_script os)) = l ++ tail
    /\ incl l [rustc_version; stylus_version; target_list; target_add]
    /\ (tail = []
        \/ tail = [build_cmd]
        \/ tail = [build_cmd; deploy]
        \/ exists contract owner treasury,
             fst (deployed os) = Ret (Some contract)
             /\ owner_of os = Some owner
             /\ treasury_of os = Some treasury
             /\ tail = [build_cmd; deploy;
                        init_cmd contract owner treasury pk mn ARBITRUM_SEPOLIA_RPC]).
Proof.
  intros pk mn deploy.
  exists (commands (snd (checked os))).
  rewrite run_script_trace, main_unfold.
  pose proof (checked_commands os) as I.
  pose proof (built_commands os) as B.
  destruct (checked os) as [[[|]|e1] t1] eqn:E1; cbn [snd] in *.
  2,3: (exists []; rewrite app_nil_r; auto).
  destruct (built os) as [[[|]|e2] t2] eqn:E2; cbn [snd] in *.
  2,3: (exists [build_cmd]; auto).
  destruct (truthy (private_key_of os) || truthy (mnemonic_of os)) eqn:K.
  2:{ apply orb_false_elim in K as [-> ->]. cbn [negb andb snd].
      exists [build_cmd]. split; [history; exact B | auto]. }
  pose proof (deployed_commands os K) as D. rewrite E1 in D. cbn [snd] in D.
  replace (negb (truthy (private_key_of os)) && negb (truthy (mnemonic_of os)))
    with false
    by (destruct (truthy (private_key_of os)), (truthy (mnemonic_of os));
        simpl in *; congruence).
  destruct (deployed os) as [[[[|c a]|]|e3] t3] eqn:E3; cbn [snd] in *.
  1,3: (exists [build_cmd; deploy]; split; [history; exact D | auto]).
  2:{ exists [build_cmd; deploy]. split; [exact D | auto]. }
  rewrite finish_commands.
  destruct (owner_of os) as [[|o ow]|] eqn:O;
    try (exists [build_cmd; deploy]; split; [history; exact D | auto]).
  destruct (treasury_of os) as [[|u tw]|] eqn:T;
    try (exists [build_cmd; deploy]; split; [history; exact D | auto]).
  exists [build_cmd; deploy;
          init_cmd (c :: a) (o :: ow) (u :: tw) pk mn ARBITRUM_SEPOLIA_RPC].
  split; [history; rewrite D; now rewrite <- app_assoc|].
  split; [exact I|]. right; right; right.
  exists (c :: a), (o :: ow), (u :: tw). auto.
Qed.

(** *** Where a run ends *)

Lemma deploy_cmd_third (pk mn : option str) (rpc_url : str) :
  nth_error (deploy_cmd pk mn rpc_url) 2 = Some (lit "deploy").
Proof. unfold deploy_cmd. now destruct pk as [[|c k]|], mn as [[|d m]|]. Qed.

Lemma init_cmd_third (contract owner treasury : str) (pk mn : option str)
    (rpc_url : str) :
  nth_error (init_cmd contract owner treasury pk mn rpc_url) 2 = Some (lit "call").
Proof. unfold init_cmd. now destruct pk as [[|c k]|], mn as [[|d m]|]. Qed.

(** Neither the check nor the build starts a deploy command. *)
Lemma no_deploy_before (os : OS) (pk mn : option str) (rpc_url : str) :
  ~ In (deploy_cmd pk mn rpc_url) (commands (snd (built os))).
Proof.
  rewrite built_commands. intros H. apply in_app_or in H as [H|H].
  - apply checked_commands in H.
    cbn [In] in H.
    repeat (destruct H as [H|H];
            [apply (f_equal (fun c => nth_error c 2)) in H;
             rewrite deploy_cmd_third in H; vm_compute in H; discriminate H|]).
    exact H.
  - destruct H as [H|[]].
    apply (f_equal (fun c => nth_error c 2)) in H.
    rewrite deploy_cmd_third in H. vm_compute in H. discriminate H.
Qed.

(** Up to the deployment no call command is started. *)
Lemma no_call_before (os : OS) (contract owner treasury : str) (pk mn : option str)
    (rpc_url : str) :
  ~ In (init_cmd contract owner treasury pk mn rpc_url) (commands (snd (deployed os))).
Proof.
  unfold deployed. rewrite deploy_contract_commands, warned_commands, built_commands.
  intros H.
  assert (H' : In (init_cmd contract owner treasury pk mn rpc_url)
                 (commands (snd (checked os)) ++
                  [build_cmd;
                   deploy_cmd (private_key_of os) (mnemonic_of os) ARBITRUM_SEPOLIA_RPC])).
  { destruct (truthy (private_key_of os) || truthy (mnemonic_of os)).
    - rewrite <- app_assoc in H. exact H.
    - apply in_app_or in H as [H|H]; apply in_or_app; [now left|right].
      destruct H as [H|[]]. now left. }
  clear H. apply in_app_or in H' as [H|H].
  - apply checked_commands in H. cbn [In] in H.
    repeat (destruct H as [H|H];
            [apply (f_equal (fun c => nth_error c 2)) in H;
             rewrite init_cmd_third in H; vm_compute in H; discriminate H|]).
    exact H.
  - destruct H as [H|[H|[]]]; apply (f_equal (fun c => nth_error c 2)) in H;
      rewrite init_cmd_third, ?deploy_cmd_third in H; vm_compute in H; discriminate H.
Qed.

(** X5.  When the builder does not return [True] (the build command exits with
    a non-zero status or cannot be started, or it leaves no artifact), the
    run ends there with exit status 1 and no deploy command is started. *)
Theorem failed_build_ends_run (os : OS) :
  fst (checked os) = Ret true ->
  fst (built os) <> Ret true ->
  fst (run_script os) = 1%Z
  /\ snd (run_script os) = snd (built os)
  /\ forall pk mn rpc_url,
       ~ In (deploy_cmd pk mn rpc_url) (commands (snd (run_script os))).
Proof.
  intros Hc Hb.
  assert (E : fst (run_script os) = 1%Z /\ snd (run_script os) = snd (built os)).
  { rewrite run_script_status, run_script_trace, main_unfold.
    destruct (checked os) as [r1 t1]. cbn [fst] in Hc. subst r1.
    pose proof (compile_contract_raises os (snd (checked os))) as R.
    fold (built os) in R.
    destruct (built os) as [[[|]|e2] t2]; cbn [fst snd] in *.
    - congruence.
    - now split.
    - split; [|reflexivity]. apply crash_status. now apply R. }
  destruct E as [E1 E2]. repeat split; [exact E1 | exact E2 |].
  intros pk mn rpc_url. rewrite E2. apply no_deploy_before.
Qed.

Lemma failed_build_ends_run_witness :
  fst (run_script no_artifact) = 1%Z
  /\ snd (run_script no_artifact) = snd (built no_artifact)
  /\ forall pk mn rpc_url,
       ~ In (deploy_cmd pk mn rpc_url) (commands (snd (run_script no_artifact))).
Proof.
  apply (failed_build_ends_run no_artifact); [reflexivity|].
  vm_compute. discriminate.
Defined.

(** X6.  The credential gate of the driver.  When the check and the build have
    succeeded and neither [PRIVATE_KEY] nor [MNEMONIC] is set to a non-empty
    value, the run prints the two lines of advice and ends with exit status
    1; the deployer is not called and no deploy command is started. *)
Theorem missing_credential_ends_run (os : OS) :
  fst (checked os) = Ret true ->
  fst (built os) = Ret true ->
  truthy (private_key_of os) = false ->
  truthy (mnemonic_of os) = false ->
  run_script os
    = (1%Z, snd (built os)
            ++ [Printed Msg_set_credential; Printed Msg_credential_example])
  /\ forall pk mn rpc_url,
       ~ In (deploy_cmd pk mn rpc_url) (commands (snd (run_script os))).
Proof.
  intros Hc Hb Hk Hm.
  assert (E : run_script os
              = (1%Z, snd (built os)
                      ++ [Printed Msg_set_credential; Printed Msg_credential_example])).
  { unfold run_script. rewrite main_unfold.
    destruct (checked os) as [r1 t1]. cbn [fst] in Hc. subst r1.
    destruct (built os) as [r2 t2]. cbn [fst] in Hb. subst r2.
    now rewrite Hk, Hm. }
  split; [exact E|].
  intros pk mn rpc_url. rewrite E. cbn [snd]. history. apply no_deploy_before.
Qed.

Lemma missing_credential_ends_run_witness :
  fst (run_script (healthy deployed_line 0 [("PRIVATE_KEY", "")]%string)) = 1%Z.
Proof.
  exact (f_equal fst
           (proj1 (missing_credential_ends_run
                     (healthy deployed_line 0 [("PRIVATE_KEY", "")]%string)
                     eq_refl eq_refl eq_refl eq_refl))).
Defined.

(** X7.  When the deployer returns no address (the deploy command failed, or it
    succeeded and no address could be read from its output), the run prints
    that the deployment failed and ends with exit status 1; the initializer
    is not called, whatever the environment says. *)
Theorem no_address_ends_run (os : OS) :
  fst (checked os) = Ret true ->
  fst (built os) = Ret true ->
  truthy (private_key_of os) || truthy (mnemonic_of os) = true ->
  fst (deployed os) = Ret None ->
  run_script os = (1%Z, snd (deployed os) ++ [Printed Msg_deployment_failed])
  /\ forall contract owner treasury pk mn rpc_url,
       ~ In (init_cmd contract owner treasury pk mn rpc_url)
            (commands (snd (run_script os))).
Proof.
  intros Hc Hb Hk Hd.
  assert (E : run_script os
              = (1%Z, snd (deployed os) ++ [Printed Msg_deployment_failed])).
  { unfold run_script. rewrite main_unfold.
    destruct (checked os) as [r1 t1]. cbn [fst] in Hc. subst r1.
    destruct (built os) as [r2 t2]. cbn [fst] in Hb. subst r2.
    replace (negb (truthy (private_key_of os)) && negb (truthy (mnemonic_of os)))
      with false
      by (destruct (truthy (private_key_of os)), (truthy (mnemonic_of os));
          simpl in *; congruence).
    destruct (deployed os) as [r3 t3]. cbn [fst] in Hd. now subst r3. }
  split; [exact E|].
  intros contract owner treasury pk mn rpc_url. rewrite E. cbn [snd]. history.
  apply no_call_before.
Qed.

Lemma no_address_ends_run_witness :
  fst (run_script (healthy (lit "done") 0 key_and_addresses)) = 1%Z.
Proof.
  exact (f_equal fst
           (proj1 (no_address_ends_run (healthy (lit "done") 0 key_and_addresses)
                     eq_refl eq_refl eq_refl eq_refl))).
Defined.

(** X8.  The initializer needs both addresses.  When the contract is deployed
    and [OWNER_ADDRESS] or [TREASURY_ADDRESS] is unset or empty, the run
    ends with exit status 0 after printing how to initialize by hand (with
    the address of the contract and the two values as they are), and no
    call command is started. *)
Theorem missing_address_skips_initializer (os : OS) (contract : str) :
  fst (checked os) = Ret true ->
  fst (built os) = Ret true ->
  truthy (private_key_of os) || truthy (mnemonic_of os) = true ->
  fst (deployed os) = Ret (Some contract) ->
  truthy (owner_of os) && truthy (treasury_of os) = false ->
  run_script os
    = (0%Z, snd (deployed os)
            ++ [Printed (Msg_deployed_at contract);
                Printed Msg_not_initialized;
                Printed Msg_set_and_run;
                Printed (Msg_interaction contract (owner_of os) (treasury_of os))])
  /\ forall c owner treasury pk mn rpc_url,
       ~ In (init_cmd c owner treasury pk mn rpc_url) (commands (snd (run_script os))).
Proof.
  intros Hc Hb Hk Hd Ha.
  assert (E : run_script os
              = (0%Z, snd (deployed os)
                      ++ [Printed (Msg_deployed_at contract);
                          Printed Msg_not_initialized;
                          Printed Msg_set_and_run;
                          Printed (Msg_interaction contract (owner_of os)
                                     (treasury_of os))])).
  { destruct (deploy_contract_truthy _ _ _ _ _ _ Hd) as (c & a & ->).
    unfold run_script. rewrite main_unfold.
    destruct (checked os) as [r1 t1]. cbn [fst] in Hc. subst r1.
    destruct (built os) as [r2 t2]. cbn [fst] in Hb. subst r2.
    replace (negb (truthy (private_key_of os)) && negb (truthy (mnemonic_of os)))
      with false
      by (destruct (truthy (private_key_of os)), (truthy (mnemonic_of os));
          simpl in *; congruence).
    destruct (deployed os) as [r3 t3]. cbn [fst] in Hd. subst r3. cbn [snd].
    unfold finish.
    destruct (owner_of os) as [[|o ow]|], (treasury_of os) as [[|u tw]|];
      try discriminate Ha; unfold bind, print; cbn; now rewrite <- !app_assoc. }
  split; [exact E|].
  intros c owner treasury pk mn rpc_url. rewrite E. cbn [snd]. history.
  apply no_call_before.
Qed.

Lemma missing_address_skips_initializer_witness :
  fst (run_script (healthy deployed_line 0
                     [("PRIVATE_KEY", "0xkey"); ("OWNER_ADDRESS", "0x01")]%string))
    = 0%Z.
Proof.
  exact (f_equal fst
           (proj1 (missing_address_skips_initializer
                     (healthy deployed_line 0
                        [("PRIVATE_KEY", "0xkey"); ("OWNER_ADDRESS", "0x01")]%string)
                     deployed_address eq_refl eq_refl eq_refl eq_refl eq_refl))).
Defined.

(** *** The line the address is taken from *)

Lemma split_from_nonempty (sep s : str) :
  forall skip cur, split_from sep skip cur s <> [].
Proof.
  induction s as [|c s IH]; intros skip cur; simpl; [discriminate|].
  destruct skip; [|apply IH].
  destruct (startswith sep (c :: s)); [discriminate | apply IH].
Qed.

(** A text that holds the separator splits into two pieces at least. *)
Lemma split_from_two (sep s : str) :
  sep <> [] ->
  contains sep s = true ->
  forall cur, (2 <= List.length (split_from sep O cur s))%nat.
Proof.
  intros Hsep. induction s as [|c s IH]; intros H cur.
  - destruct sep; [congruence | discriminate H].
  - cbn [split_from]. cbn [contains] in H.
    destruct (startswith sep (c :: s)).
    + pose proof (split_from_nonempty sep s (pred (List.length sep)) []) as N.
      destruct (split_from sep (pred (List.length sep)) [] s); [congruence|].
      simpl. lia.
    + apply IH. exact H.
Qed.

(** One turn of the loop on a selected line: the loop ends there, with the
    first word after the first "0x" cut at forty characters, or with
    [IndexError] when no word follows. *)
Lemma scan_lines_selected (line : str) (rest : list str) (t : trace) :
  selected line = true ->
  exists part,
    nth_error (split (lit "0x") line) 1 = Some part
    /\ scan_lines (line :: rest) t
       = (match split_ws part with
          | word :: _ => Ret (Some (lit "0x" ++ slice_to 40 word))
          | [] => Raise IndexError
          end, t ++ [Printed (Msg_line line)]).
Proof.
  unfold selected. intros H. apply andb_prop in H as [Hm Hx].
  assert (L : (2 <= List.length (split (lit "0x") line))%nat)
    by (apply split_from_two; [discriminate | exact Hx]).
  destruct (nth_error (split (lit "0x") line) 1) as [part|] eqn:P.
  2:{ apply nth_error_None in P. lia. }
  exists part. split; [reflexivity|].
  cbn [scan_lines]. rewrite Hm, Hx. unfold bind, print, getitem.
  replace (1 <? List.length (split (lit "0x") line))%nat with true
    by (symmetry; apply Nat.ltb_lt; lia).
  rewrite P. unfold ret, raise.
  now destruct (split_ws part) as [|word ws].
Qed.

(** The loop returns [None] exactly when no line of the output is
    selected, that is when no line both names the deployment ("deployed" or
    "address", in any case) and holds "0x". *)
Lemma scan_lines_none_iff (lines : list str) :
  forall t, fst (scan_lines lines t) = Ret None <->
            Forall (fun l => selected l = false) lines.
Proof.
  induction lines as [|line rest IH]; intros t.
  - split; [constructor | reflexivity].
  - destruct (selected line) eqn:S.
    + destruct (scan_lines_selected line rest t S) as (part & _ & ->).
      split.
      * cbn [fst]. destruct (split_ws part); intros E; discriminate E.
      * intros F. inversion F; congruence.
    + destruct (scan_lines_pass line rest t S) as (t' & -> & _).
      rewrite IH. split; [now constructor | intros F; now inversion F].
Qed.

(** X10.  The deployer returns [None] in three cases and no other: no credential
    was supplied; the deploy command exited with a non-zero status; the
    command exited with status zero and no line of its output is selected. *)
Theorem deploy_contract_none_iff
    (os : OS) (pk mn : option str) (rpc_url : str) (t : trace) :
  fst (deploy_contract os pk mn rpc_url t) = Ret None <->
  truthy pk || truthy mn = false
  \/ (truthy pk || truthy mn = true
      /\ exists rc out err,
           exec os (commands t) (deploy_cmd pk mn rpc_url) = Exited rc out err
           /\ (rc <> 0%Z
               \/ Forall (fun l => selected l = false) (split newline (out ++ err)))).
Proof.
  unfold deploy_contract, bind, print, try_except, run.
  destruct (truthy pk || truthy mn) eqn:K.
  2:{ apply orb_false_elim in K as [-> ->]. cbn. split; [now left | reflexivity]. }
  replace (negb (truthy pk) && negb (truthy mn)) with false
    by (destruct (truthy pk), (truthy mn); simpl in *; congruence).
  rewrite !commands_printed.
  destruct (exec os (commands t) (deploy_cmd pk mn rpc_url)) as [[|p|p] out err|];
    cbn [fst snd].
  - match goal with |- context [scan_lines ?l ?u] =>
      pose proof (scan_lines_none_iff l u) as N;
      pose proof (scan_lines_raises l u) as R;
      destruct (scan_lines l u) as [[o|e] t2]
    end; cbn [fst] in *.
    + rewrite N. split.
      * intros F. right. split; [reflexivity|]. exists 0%Z, out, err. auto.
      * intros [H|(_ & rc & o' & e' & E & [H|H])]; try discriminate H.
        -- injection E as <- _ _. congruence.
        -- now injection E as _ <- <-.
    + rewrite (R e eq_refl). split; [discriminate|].
      intros [H|(_ & rc & o' & e' & E & [H|H])]; try discriminate H.
      * injection E as <- _ _. congruence.
      * injection E as _ <- <-. apply N in H. discriminate H.
  - split; [intros _|reflexivity]. right. split; [reflexivity|].
    exists (Z.pos p), out, err. split; [reflexivity | now left].
  - split; [intros _|reflexivity]. right. split; [reflexivity|].
    exists (Z.neg p), out, err. split; [reflexivity | now left].
  - split; [discriminate|].
    intros [H|(_ & rc & o' & e' & E & _)]; discriminate.
Qed.

Lemma deploy_contract_none_iff_witness :
  fst (deploy_contract (healthy (lit "done") 0 key_only)
         (Some (lit "0xkey")) None ARBITRUM_SEPOLIA_RPC []) = Ret None.
Proof.
  apply (proj2 (deploy_contract_none_iff (healthy (lit "done") 0 key_only)
                  (Some (lit "0xkey")) None ARBITRUM_SEPOLIA_RPC [])).
  right. split; [reflexivity|].
  exists 0%Z, (lit "done"), []. split; [reflexivity|].
  right. repeat constructor.
Defined.

(** *** The mnemonic *)

(** X11.  Without a private key (unset, or set to the empty string) and with a
    mnemonic, both commands end in the mnemonic flag and the phrase, and the
    private-key flag is not among the arguments of the deploy command
    (unless the caller passes that very text as the endpoint or the phrase);
    the deployer starts the command so built. *)
Theorem mnemonic_used_without_key
    (os : OS) (pk : option str) (phrase rpc_url contract owner treasury : str)
    (t : trace) :
  truthy pk = false ->
  phrase <> [] ->
  let cmd := deploy_cmd pk (Some phrase) rpc_url in
  cmd = deploy_args rpc_url ++ [flag_mnemonic; phrase]
  /\ commands (snd (deploy_contract os pk (Some phrase) rpc_url t)) = commands t ++ [cmd]
  /\ (rpc_url <> flag_private_key -> phrase <> flag_private_key ->
      ~ In flag_private_key cmd)
  /\ init_cmd contract owner treasury pk (Some phrase) rpc_url
     = call_args contract owner treasury rpc_url ++ [flag_mnemonic; phrase].
Proof.
  intros Hk Hp cmd.
  destruct phrase as [|d p]; [congruence|].
  assert (E : cmd = deploy_args rpc_url ++ [flag_mnemonic; d :: p]).
  { unfold cmd, deploy_cmd. now destruct pk as [[|c k]|]; try discriminate Hk. }
  split; [exact E|].
  split.
  { apply deploy_started. rewrite Hk. reflexivity. }
  split.
  { intros Hr Hph Hin. rewrite E in Hin. unfold deploy_args in Hin.
    cbn [app In] in Hin.
    repeat (destruct Hin as [Hin|Hin];
            [first [now apply Hr | now apply Hph
                   | vm_compute in Hin; discriminate Hin]|]).
    exact Hin. }
  unfold init_cmd. now destruct pk as [[|c k]|]; try discriminate Hk.
Qed.

Lemma mnemonic_used_without_key_witness :
  deploy_cmd (Some []) (Some (lit "word word")) ARBITRUM_SEPOLIA_RPC
  = deploy_args ARBITRUM_SEPOLIA_RPC ++ [flag_mnemonic; lit "word word"].
Proof.
  assert (N : lit "word word" <> []) by discriminate.
  exact (proj1 (mnemonic_used_without_key (healthy deployed_line 0 []) (Some [])
                  (lit "word word") ARBITRUM_SEPOLIA_RPC
                  (lit "0x01") (lit "0x02") (lit "0x03") [] eq_refl N)).
Defined.

(** *** The initializer *)

(** X12.  The initializer returns [True] exactly when its command exits with
    status zero.  When the command exits with another status, it returns
    [False] after printing the captured standard error, and nothing more. *)
Theorem initialize_contract_true_iff
    (os : OS) (contract owner treasury : str) (pk mn : option str) (rpc_url : str)
    (t : trace) :
  let cmd := init_cmd contract owner treasury pk mn rpc_url in
  (fst (initialize_contract os contract owner treasury pk mn rpc_url t) = Ret true
   <-> succeeds (exec os (commands t) cmd) = true)
  /\ forall rc out err,
       exec os (commands t) cmd = Exited rc out err ->
       rc <> 0%Z ->
       initialize_contract os contract owner treasury pk mn rpc_url t
       = (Ret false,
          t ++ [Printed (Msg_initializing contract); Printed (Msg_owner owner);
                Printed (Msg_treasury treasury); Started cmd;
                Printed (Msg_init_error err)]).
Proof.
  intros cmd. split.
  - rewrite initialize_contract_result. fold cmd.
    destruct (exec os (commands t) cmd) as [[|p|p] out err|]; cbn;
      split; congruence.
  - intros rc out err E Hrc.
    unfold initialize_contract, try_except, bind, run, print, ret. fold cmd.
    rewrite !commands_printed, E.
    destruct rc as [|p|p]; [congruence| |]; cbn; now rewrite <- !app_assoc.
Qed.

Lemma initialize_contract_true_iff_witness :
  fst (initialize_contract (healthy deployed_line 0 key_only)
         deployed_address (lit "0x01") (lit "0x02") (Some (lit "0xkey")) None
         ARBITRUM_SEPOLIA_RPC []) = Ret true.
Proof.
  apply (proj1 (initialize_contract_true_iff (healthy deployed_line 0 key_only)
                  deployed_address (lit "0x01") (lit "0x02") (Some (lit "0xkey")) None
                  ARBITRUM_SEPOLIA_RPC [])).
  reflexivity.
Defined.

(** *** How a run can end *)

(** When every command exits or is missing, what leaves [main] is
    [SystemExit] with code 1, [FileNotFoundError] or [IndexError]. *)
Lemma main_raises (os : OS) (e : exn) :
  fst (main os []) = Raise e ->
  e = SystemExit 1 \/ e = FileNotFoundError \/ e = IndexError.
Proof.
  rewrite main_unfold.
  pose proof (check_prerequisites_raises os banner) as R1. fold (checked os) in R1.
  pose proof (compile_contract_raises os (snd (checked os))) as R2.
  fold (built os) in R2.
  pose proof (deploy_contract_raises os (private_key_of os) (mnemonic_of os)
                ARBITRUM_SEPOLIA_RPC (warned os)) as R3.
  fold (deployed os) in R3.
  destruct (checked os) as [[[|]|e1] t1]; cbn [fst snd] in *.
  2:{ intros E. injection E as <-. now left. }
  2:{ intros E. injection E as <-. right. apply R1. reflexivity. }
  destruct (built os) as [[[|]|e2] t2]; cbn [fst snd] in *.
  2:{ intros E. injection E as <-. now left. }
  2:{ intros E. injection E as <-. right. apply R2. reflexivity. }
  destruct (negb (truthy (private_key_of os)) && negb (truthy (mnemonic_of os))).
  { intros E. injection E as <-. now left. }
  destruct (deployed os) as [[[[|c a]|]|e3] t3]; cbn [fst snd] in *.
  - intros E. injection E as <-. now left.
  - rewrite finish_result.
    destruct (owner_of os) as [[|o ow]|]; try discriminate.
    destruct (treasury_of os) as [[|u tw]|]; try discriminate.
    rewrite initialize_contract_result.
    destruct (exec os _ _); [discriminate|].
    intros E. injection E as <-. right. now left.
  - intros E. injection E as <-. now left.
  - intros E. injection E as <-. right. apply R3. reflexivity.
Qed.

(** X13.  Every [CalledProcessError] is handled where it is raised: a
    command that exits with a non-zero status never makes a stage, or the
    run, end with that exception.  And when [main] ends with [SystemExit],
    the code is 1. *)
Theorem called_process_error_is_handled
    (os : OS) (t : trace) (pk mn : option str) (rpc_url contract owner treasury : str)
    (rc : Z) (err : str) :
  fst (check_prerequisites os t) <> Raise (CalledProcessError rc err)
  /\ fst (compile_contract os t) <> Raise (CalledProcessError rc err)
  /\ fst (deploy_contract os pk mn rpc_url t) <> Raise (CalledProcessError rc err)
  /\ fst (initialize_contract os contract owner treasury pk mn rpc_url t)
     <> Raise (CalledProcessError rc err)
  /\ fst (main os []) <> Raise (CalledProcessError rc err)
  /\ forall code, fst (main os []) = Raise (SystemExit code) -> code = 1%Z.
Proof.
  split.
  { intros H. apply check_prerequisites_raises in H as [H|H]; discriminate H. }
  split.
  { intros H. apply compile_contract_raises in H as [H|H]; discriminate H. }
  split.
  { intros H. apply deploy_contract_raises in H as [H|H]; discriminate H. }
  split.
  { rewrite initialize_contract_result.
    destruct (exec os (commands t) _); discriminate. }
  split.
  { intros H. apply main_raises in H as [H|[H|H]]; discriminate H. }
  intros code H. apply main_raises in H as [H|[H|H]]; try discriminate H.
  now injection H.
Qed.

(** *** The environment *)

(** The stages consult the system through its commands and its files only. *)
Lemma same_system (os os' : OS) :
  exec os = exec os' ->
  stat_size os = stat_size os' ->
  check_prerequisites os = check_prerequisites os'
  /\ compile_contract os = compile_contract os'
  /\ deploy_contract os = deploy_contract os'
  /\ initialize_contract os = initialize_contract os'.
Proof.
  destruct os as [e s g], os' as [e' s' g']. cbn [exec stat_size].
  intros <- <-. repeat split.
Qed.

(** X14.  A run reads four variables of the environment and no other:
    [PRIVATE_KEY], [MNEMONIC], [OWNER_ADDRESS] and [TREASURY_ADDRESS].  Two
    systems that answer commands and file queries alike and agree on these
    four give the same exit status and the same trace; in particular
    [STYLUS_PROGRAM_ID], which the module names, is never read. *)
Theorem run_reads_four_variables (os os' : OS) :
  exec os = exec os' ->
  stat_size os = stat_size os' ->
  getenv os (lit "PRIVATE_KEY") = getenv os' (lit "PRIVATE_KEY") ->
  getenv os (lit "MNEMONIC") = getenv os' (lit "MNEMONIC") ->
  getenv os (lit "OWNER_ADDRESS") = getenv os' (lit "OWNER_ADDRESS") ->
  getenv os (lit "TREASURY_ADDRESS") = getenv os' (lit "TREASURY_ADDRESS") ->
  run_script os = run_script os'.
Proof.
  intros He Hs Hk Hm Ho Ht.
  destruct (same_system os os' He Hs) as (C & B & D & I).
  unfold run_script. f_equal.
  unfold main, finish.
  rewrite C, B, D, I, Hk, Hm, Ho, Ht. reflexivity.
Qed.

Lemma run_reads_four_variables_witness :
  run_script (healthy deployed_line 0 key_and_addresses)
  = run_script (healthy deployed_line 0
                  (("STYLUS_PROGRAM_ID", "0xabc")%string :: key_and_addresses)).
Proof.
  apply (run_reads_four_variables
           (healthy deployed_line 0 key_and_addresses)
           (healthy deployed_line 0
              (("STYLUS_PROGRAM_ID", "0xabc")%string :: key_and_addresses)));
    reflexivity.
Defined.

(** *** Where the address text starts and ends *)

Lemma startswith_app (sep s : str) :
  startswith sep s = true <-> exists post, s = sep ++ post.
Proof.
  revert s. induction sep as [|c sep IH]; intros s; simpl.
  - split; [now exists s | reflexivity].
  - destruct s as [|d s]; [split; [discriminate | intros (post & E); discriminate E]|].
    unfold eqb_char. split.
    + intros H. apply andb_prop in H as [Hc Hs].
      apply N.eqb_eq in Hc. subst d.
      apply IH in Hs as (post & ->). now exists post.
    + intros (post & E). injection E as -> ->.
      rewrite N.eqb_refl. apply IH. now exists post.
Qed.

(** Skipping is dropping: the characters of a recognised separator are
    passed over without being looked at. *)
Lemma split_from_skip (sep s : str) :
  forall k cur, (k <= List.length s)%nat ->
  split_from sep k cur s = split_from sep O cur (skipn k s).
Proof.
  induction s as [|c s IH]; intros [|k] cur H; try reflexivity.
  simpl. apply IH. simpl in H. lia.
Qed.

(** The first piece of a split is the text up to the first separator. *)
Lemma split_from_first (sep s : str) :
  sep <> [] ->
  contains sep s = true ->
  forall cur,
  exists pre post,
    s = pre ++ sep ++ post
    /\ split_from sep O cur s = (rev cur ++ pre) :: split_from sep O [] post
    /\ forall i, (i < List.length pre)%nat -> startswith sep (skipn i s) = false.
Proof.
  intros Hsep. induction s as [|c s IH]; intros H cur.
  - destruct sep; [congruence | discriminate H].
  - cbn [split_from]. cbn [contains] in H.
    destruct (startswith sep (c :: s)) eqn:S.
    + apply startswith_app in S as (post & E).
      exists [], post. rewrite app_nil_r. split; [exact E|].
      split; [|intros i Hi; simpl in Hi; lia].
      f_equal. destruct sep as [|d sep]; [congruence|].
      injection E as _ ->. cbn [List.length pred].
      rewrite split_from_skip by (rewrite length_app; lia).
      now rewrite skipn_app, skipn_all, Nat.sub_diag.
    + simpl in H. destruct (IH H (c :: cur)) as (pre & post & E & P & F).
      exists (c :: pre), post. split; [now rewrite E|].
      split; [rewrite P; cbn [rev]; now rewrite <- app_assoc|].
      intros [|i] Hi; [exact S|]. cbn [skipn]. apply F. simpl in Hi. lia.
Qed.

(** The first piece of a split is a prefix of the text; it stops at the
    end of the text or in front of a separator, and no separator begins
    inside it. *)
Lemma split_from_head (sep s : str) :
  forall cur,
  exists piece rest others,
    split_from sep O cur s = (rev cur ++ piece) :: others
    /\ s = piece ++ rest
    /\ (rest = [] \/ startswith sep rest = true)
    /\ forall i, (i < List.length piece)%nat -> startswith sep (skipn i s) = false.
Proof.
  induction s as [|c s IH]; intros cur.
  - exists [], [], []. rewrite app_nil_r.
    repeat (split; [auto|]). intros i Hi. simpl in Hi. lia.
  - cbn [split_from]. destruct (startswith sep (c :: s)) eqn:S.
    + exists [], (c :: s), (split_from sep (pred (List.length sep)) [] s).
      rewrite app_nil_r.
      repeat (split; [auto|]). intros i Hi. simpl in Hi. lia.
    + destruct (IH (c :: cur)) as (piece & rest & others & P & E & R & F).
      exists (c :: piece), rest, others.
      split; [rewrite P; cbn [rev]; now rewrite <- app_assoc|].
      split; [now rewrite E|]. split; [exact R|].
      intros [|i] Hi; [exact S|]. cbn [skipn]. apply F. simpl in Hi. lia.
Qed.

(** [part] is the text of [line] between its first "0x" and the next "0x",
    or the end of the line when there is no other: "0x" precedes it and
    begins nowhere earlier; no "0x" begins inside it; what follows it is
    empty or begins with "0x". *)
Definition address_text (line part : str) : Prop :=
  exists pre rest,
    line = pre ++ lit "0x" ++ part ++ rest
    /\ (forall i, (i < List.length pre)%nat ->
                  startswith (lit "0x") (skipn i line) = false)
    /\ (forall i, (i < List.length part)%nat ->
                  startswith (lit "0x") (skipn i (part ++ rest)) = false)
    /\ (rest = [] \/ startswith (lit "0x") rest = true).

(** The second piece of [line.split("0x")] is that text. *)
Lemma split_second_piece (line : str) :
  contains (lit "0x") line = true ->
  exists part,
    address_text line part
    /\ nth_error (split (lit "0x") line) 1 = Some part.
Proof.
  intros Hx.
  assert (Hsep : lit "0x" <> []) by discriminate.
  destruct (split_from_first (lit "0x") line Hsep Hx []) as (pre & post & E & P & F).
  destruct (split_from_head (lit "0x") post [])
    as (part & rest & others & Q & E' & R & G).
  exists part. split.
  - exists pre, rest. split; [now rewrite E, E'|]. split; [exact F|].
    split; [now rewrite <- E' | exact R].
  - unfold split. rewrite P, Q. reflexivity.
Qed.

(** X15.  On a selected line, [parts[1]], the piece of
    [line.split("0x")] the address is cut from, is the text between the
    first "0x" of the line and the next "0x" (or the end of the line): it
    starts right after the first "0x", no "0x" begins inside it, and it is
    followed by "0x" or by nothing. *)
Theorem address_text_follows_first_0x (line : str) :
  selected line = true ->
  exists part,
    address_text line part
    /\ nth_error (split (lit "0x") line) 1 = Some part.
Proof.
  unfold selected. intros H. apply andb_prop in H as [_ Hx].
  now apply split_second_piece.
Qed.

Lemma address_text_follows_first_0x_witness :
  exists part,
    address_text (lit "deployed 0xB0xC0xD") part
    /\ nth_error (split (lit "0x") (lit "deployed 0xB0xC0xD")) 1 = Some part.
Proof.
  apply (address_text_follows_first_0x (lit "deployed 0xB0xC0xD")). reflexivity.
Defined.

(** *** A well-formed address is read back as it is *)

Lemma split_from_at (sep post : str) (pre : str) :
  forall cur,
  (forall i, (i < List.length pre)%nat ->
             startswith sep (skipn i (pre ++ sep ++ post)) = false) ->
  sep <> [] ->
  split_from sep O cur (pre ++ sep ++ post)
  = (rev cur ++ pre) :: split_from sep O [] post.
Proof.
  induction pre as [|c pre IH]; intros cur F Hsep.
  - rewrite app_nil_r. cbn [app].
    destruct sep as [|d sep]; [congruence|].
    cbn [app split_from].
    replace (startswith (d :: sep) (d :: sep ++ post)) with true
      by (symmetry; apply (startswith_app (d :: sep)); now exists post).
    f_equal. cbn [List.length pred].
    rewrite split_from_skip by (rewrite length_app; lia).
    now rewrite skipn_app, skipn_all, Nat.sub_diag.
  - cbn [app split_from].
    assert (F0 : startswith sep (c :: pre ++ sep ++ post) = false)
      by (apply (F O); simpl; lia).
    rewrite F0.
    rewrite IH; [cbn [rev]; now rewrite <- app_assoc| |exact Hsep].
    intros i Hi. apply (F (S i)). simpl. lia.
Qed.

Lemma split_from_prefix (sep s : str) (w : str) :
  forall cur,
  (forall i, (i < List.length w)%nat -> startswith sep (skipn i (w ++ s)) = false) ->
  exists more others,
    split_from sep O cur (w ++ s) = (rev cur ++ w ++ more) :: others.
Proof.
  induction w as [|c w IH]; intros cur F.
  - destruct (split_from_head sep s cur) as (piece & rest & others & P & _).
    now exists piece, others.
  - cbn [app split_from].
    assert (F0 : startswith sep (c :: w ++ s) = false)
      by (apply (F O); simpl; lia).
    rewrite F0.
    destruct (IH (c :: cur)) as (more & others & P).
    { intros i Hi. apply (F (S i)). simpl. lia. }
    exists more, others. rewrite P. cbn [rev]. now rewrite <- app_assoc.
Qed.

(** The text between the two prefixes is determined by the line. *)
Lemma address_text_unique (line part part' : str) :
  address_text line part -> address_text line part' -> part = part'.
Proof.
  intros H H'.
  assert (C : contains (lit "0x") line = true).
  { destruct H as (pre & rest & E & _). rewrite E. clear.
    induction pre as [|c pre IH]; [reflexivity|].
    cbn [app contains]. rewrite IH. apply orb_true_r. }
  assert (U : forall p, address_text line p ->
                        nth_error (split (lit "0x") line) 1 = Some p).
  { clear H H'. intros p (pre & rest & E & F & G & R).
    assert (Hsep : lit "0x" <> []) by discriminate.
    unfold split. rewrite E.
    rewrite (split_from_at (lit "0x") (p ++ rest) pre []);
      [|now rewrite <- E | exact Hsep].
    destruct (split_from_prefix (lit "0x") rest p [] G) as (more & others & Q).
    rewrite Q. cbn [rev app nth_error]. f_equal.
    (* the piece that begins with [p] ends where [p] ends *)
    destruct (split_from_head (lit "0x") (p ++ rest) [])
      as (piece & rest' & others' & Q' & E' & R' & G').
    rewrite Q in Q'. injection Q' as Q' _. cbn [rev app] in Q'. subst piece.
    rewrite <- app_assoc in E'. apply app_inv_head in E'.
    destruct more as [|m more]; [now rewrite app_nil_r|].
    exfalso.
    specialize (G' (List.length p)).
    rewrite length_app in G'. cbn [List.length] in G'.
    rewrite skipn_app, skipn_all, Nat.sub_diag in G'. cbn [skipn app] in G'.
    destruct R as [->|R]; [discriminate E'|].
    rewrite R in G'. assert (true = false) by (apply G'; lia). discriminate. }
  apply U in H. apply U in H'. congruence.
Qed.

(** Among characters other than "x", and in front of a text that does not
    begin with "x", no "0x" begins. *)
Lemma no_prefix_among (w s : str) :
  Forall (fun c => c <> 120) w ->
  hd_error s <> Some 120 ->
  forall i, (i < List.length w)%nat ->
            startswith (lit "0x") (skipn i (w ++ s)) = false.
Proof.
  intros Hw Hs. induction Hw as [|c w Hc Hw IH]; intros i Hi; [simpl in Hi; lia|].
  destruct i as [|i]; [|cbn [app skipn]; apply IH; simpl in Hi; lia].
  cbn [app skipn]. apply not_true_is_false. intros S.
  apply (startswith_app (lit "0x")) in S as (post & E).
  injection E as _ E.
  destruct Hw as [|d w Hd _].
  - destruct s as [|d s]; [discriminate E|]. injection E as -> _. now apply Hs.
  - injection E as -> _. now apply Hd.
Qed.

Lemma split_ws_from_started (s : str) :
  forall cur, cur <> [] ->
  exists more ws, split_ws_from cur s = (rev cur ++ more) :: ws.
Proof.
  induction s as [|c s IH]; intros cur H.
  - destruct cur; [congruence|]. exists [], []. now rewrite app_nil_r.
  - cbn [split_ws_from]. destruct (isspace c).
    + destruct cur; [congruence|]. exists [], (split_ws_from [] s).
      now rewrite app_nil_r.
    + destruct (IH (c :: cur)) as (more & ws & E); [discriminate|].
      exists (c :: more), ws. rewrite E. cbn [rev]. now rewrite <- app_assoc.
Qed.

Lemma split_ws_from_word (w s : str) :
  forall cur,
  no_space w -> w <> [] ->
  exists more ws, split_ws_from cur (w ++ s) = (rev cur ++ w ++ more) :: ws.
Proof.
  induction w as [|c w IH]; intros cur Hw Hne; [congruence|].
  inversion Hw as [|? ? Hc Hw']; subst.
  cbn [app split_ws_from]. rewrite Hc.
  destruct w as [|d w].
  - cbn [app].
    destruct (split_ws_from_started s (c :: cur)) as (more & ws & E); [discriminate|].
    exists more, ws. rewrite E. cbn [rev app]. now rewrite <- app_assoc.
  - destruct (IH (c :: cur) Hw') as (more & ws & E); [discriminate|].
    exists more, ws. rewrite E. cbn [rev]. now rewrite <- app_assoc.
Qed.

Lemma is_hex_range (c : char) : is_hex c = true -> 48 <= c <= 102.
Proof.
  unfold is_hex. intros H.
  apply orb_prop in H as [H|H]; [apply orb_prop in H as [H|H]|];
    apply andb_prop in H as [H1 H2];
    apply N.leb_le in H1; apply N.leb_le in H2; lia.
Qed.

Lemma is_hex_not_space (c : char) : is_hex c = true -> isspace c = false.
Proof.
  intros H. apply is_hex_range in H. unfold isspace.
  replace (c <=? 13) with false by (symmetry; apply N.leb_gt; lia).
  replace (c <=? 32) with false by (symmetry; apply N.leb_gt; lia).
  replace (8192 <=? c) with false by (symmetry; apply N.leb_gt; lia).
  repeat match goal with
         | |- context [c =? ?n] =>
             replace (c =? n) with false by (symmetry; apply N.eqb_neq; lia)
         end.
  now rewrite !andb_false_r.
Qed.

Lemma is_hex_not_x (c : char) : is_hex c = true -> c <> 120.
Proof. intros H. apply is_hex_range in H. lia. Qed.

(** X16.  When a line names the deployment and its first "0x" is followed by
    forty hexadecimal digits, and the text after them does not begin with
    "x", the loop returns "0x" with exactly these digits, a well-formed
    address: whatever follows the digits is cut off. *)
Theorem well_formed_address_is_extracted
    (pre digits tail : str) (rest : list str) (t : trace) :
  let line := pre ++ lit "0x" ++ digits ++ tail in
  mentions_deployment line = true ->
  (forall i, (i < List.length pre)%nat ->
             startswith (lit "0x") (skipn i line) = false) ->
  List.length digits = 40%nat ->
  forallb is_hex digits = true ->
  hd_error tail <> Some 120 ->
  scan_lines (line :: rest) t
    = (Ret (Some (lit "0x" ++ digits)), t ++ [Printed (Msg_line line)])
  /\ is_address (lit "0x" ++ digits) = true.
Proof.
  intros line Hm Hfirst Hlen Hhex Htail.
  rewrite forallb_forall in Hhex.
  assert (Hsep : lit "0x" <> []) by discriminate.
  assert (Hd : digits <> []) by (intros ->; discriminate Hlen).
  assert (Hns : no_space digits).
  { apply Forall_forall. intros c Hc. apply is_hex_not_space. now apply Hhex. }
  assert (Hx : Forall (fun c => c <> 120) digits).
  { apply Forall_forall. intros c Hc. apply is_hex_not_x. now apply Hhex. }
  pose proof (split_from_at (lit "0x") (digits ++ tail) pre [] Hfirst Hsep) as P.
  destruct (split_from_prefix (lit "0x") tail digits []
              (no_prefix_among digits tail Hx Htail)) as (more & others & Q).
  assert (Hsel : selected line = true).
  { unfold selected. rewrite Hm. cbn [andb].
    unfold line. clear. induction pre as [|c pre IH]; [reflexivity|].
    cbn [app contains]. rewrite IH. apply orb_true_r. }
  split.
  - destruct (split_ws_from_word digits more [] Hns Hd) as (more' & ws & W).
    assert (Hp : nth_error (split (lit "0x") line) 1 = Some (digits ++ more)).
    { unfold split. fold line in P. rewrite P, Q. reflexivity. }
    assert (Hw : nth_error (split_ws (digits ++ more)) 0 = Some (digits ++ more')).
    { unfold split_ws. rewrite W. reflexivity. }
    pose proof (scan_lines_hit line (digits ++ more) (digits ++ more') rest t
                  Hsel Hp Hw) as E.
    unfold slice_to in E. rewrite firstn_app, Hlen, Nat.sub_diag in E.
    rewrite <- Hlen, firstn_all in E. cbn [firstn] in E.
    rewrite app_nil_r in E. exact E.
  - cbn. rewrite Hlen. cbn.
    apply forallb_forall. exact Hhex.
Qed.

Lemma well_formed_address_is_extracted_witness :
  scan_lines [deployed_line] []
  = (Ret (Some deployed_address), [Printed (Msg_line deployed_line)]).
Proof.
  refine (proj1 (well_formed_address_is_extracted
                   (lit "Contract deployed at: ")
                   (lit "ABCDEF0123456789ABCDEF0123456789ABCDEF01")
                   (lit " (gas used: 500000)") [] [] eq_refl _ eq_refl eq_refl _)).
  - intros i Hi.
    do 22 (destruct i as [|i]; [reflexivity|]).
    simpl in Hi. lia.
  - discriminate.
Defined.

(** *** Upper and lower case *)






(** *** Which address the deployer returns *)

(** X9.  The result of the loop is decided by the first selected line alone:
    the lines before it are passed over, the lines after it are not looked
    at.  The address is cut from the text between the first "0x" of that
    line and the next "0x" (or the end of the line): it is "0x" and the
    first word of that text, cut at forty characters; when that text holds
    no word, the loop raises [IndexError], even if a word follows a later
    "0x". *)
Theorem scan_lines_first_selected
    (before after : list str) (line : str) (t : trace) :
  Forall (fun l => selected l = false) before ->
  selected line = true ->
  exists part,
    address_text line part
    /\ fst (scan_lines (before ++ line :: after) t)
       = match split_ws part with
         | word :: _ => Ret (Some (lit "0x" ++ slice_to 40 word))
         | [] => Raise IndexError
         end.
Proof.
  intros Hb Hl.
  destruct (scan_lines_skip before (line :: after) Hb t) as (t' & -> & _).
  destruct (scan_lines_selected line after t' Hl) as (part & P & ->).
  unfold selected in Hl. apply andb_prop in Hl as [_ Hx].
  destruct (split_second_piece line Hx) as (part' & A & P').
  assert (part' = part) by congruence. subst part'.
  exists part. split; [exact A | reflexivity].
Qed.

Lemma scan_lines_first_selected_witness :
  exists part,
    address_text (lit "deployed 0x0x1234") part
    /\ fst (scan_lines ([lit "contract size: 8.9 KB"]
                        ++ lit "deployed 0x0x1234" :: [deployed_line]) [])
       = match split_ws part with
         | word :: _ => Ret (Some (lit "0x" ++ slice_to 40 word))
         | [] => Raise IndexError
         end.
Proof.
  apply (scan_lines_first_selected [lit "contract size: 8.9 KB"] [deployed_line]
           (lit "deployed 0x0x1234") []).
  - repeat constructor.
  - reflexivity.
Defined.

(** An address returned by the loop comes from the first selected line. *)
Lemma scan_lines_some (lines : list str) :
  forall t a,
  fst (scan_lines lines t) = Ret (Some a) ->
  exists before line after part word ws,
    lines = before ++ line :: after
    /\ Forall (fun l => selected l = false) before
    /\ selected line = true
    /\ nth_error (split (lit "0x") line) 1 = Some part
    /\ split_ws part = word :: ws
    /\ a = lit "0x" ++ slice_to 40 word.
Proof.
  induction lines as [|line rest IH]; intros t a H.
  - discriminate H.
  - destruct (selected line) eqn:S.
    + destruct (scan_lines_selected line rest t S) as (part & P & E).
      rewrite E in H. cbn [fst] in H.
      destruct (split_ws part) as [|word ws] eqn:W; [discriminate H|].
      injection H as <-.
      exists [], line, rest, part, word, ws. repeat (split; [auto|]). reflexivity.
    + destruct (scan_lines_pass line rest t S) as (t' & E & _).
      rewrite E in H.
      destruct (IH t' a H) as (before & l & after & part & word & ws & -> & F & R).
      exists (line :: before), l, after, part, word, ws.
      split; [reflexivity|]. split; [now constructor | exact R].
Qed.

(** An address is returned only after a deploy command that exited with
    status zero, and it is the result of the loop on its output. *)
Lemma deploy_contract_some
    (os : OS) (pk mn : option str) (rpc_url : str) (t : trace) (a : str) :
  fst (deploy_contract os pk mn rpc_url t) = Ret (Some a) ->
  exists out err u,
    exec os (commands t) (deploy_cmd pk mn rpc_url) = Exited 0 out err
    /\ fst (scan_lines (split newline (out ++ err)) u) = Ret (Some a).
Proof.
  unfold deploy_contract, bind, print, try_except, run.
  destruct (negb (truthy pk) && negb (truthy mn)); [intros E; discriminate E|].
  rewrite !commands_printed.
  destruct (exec os (commands t) (deploy_cmd pk mn rpc_url)) as [[|p|p] out err|];
    cbn [fst snd]; try (intros E; discriminate E).
  match goal with |- context [scan_lines ?l ?u] =>
    destruct (scan_lines l u) as [[o|e] t2] eqn:S
  end.
  - intros E. injection E as ->. exists out, err. eexists. split; [reflexivity|].
    now rewrite S.
  - destruct e; intros E; discriminate E.
Qed.

(** C4, as the code has it.  Whenever the deployer returns an address, the
    deploy command has exited with status zero and the address is read from
    the first selected line of its output: it is "0x" followed by the first
    word of the text between the first "0x" of that line and the next "0x"
    (or the end of the line), cut at forty characters.  So it is "0x" and
    at least one, at most forty characters, none of them white space; it is
    not padded, and it is not checked to be hexadecimal. *)
Theorem deploy_contract_returns_word
    (os : OS) (pk mn : option str) (rpc_url : str) (t : trace) (a : str) :
  fst (deploy_contract os pk mn rpc_url t) = Ret (Some a) ->
  exists out err before line after part word ws,
    exec os (commands t) (deploy_cmd pk mn rpc_url) = Exited 0 out err
    /\ split newline (out ++ err) = before ++ line :: after
    /\ Forall (fun l => selected l = false) before
    /\ selected line = true
    /\ address_text line part
    /\ split_ws part = word :: ws
    /\ a = lit "0x" ++ slice_to 40 word
    /\ (1 <= List.length (slice_to 40 word) <= 40)%nat
    /\ Forall (fun c => isspace c = false) (slice_to 40 word).
Proof.
  intros H.
  apply deploy_contract_some in H as (out & err & u & X & H).
  apply scan_lines_some in H
    as (before & line & after & part & word & ws & L & F & S & P & W & ->).
  pose proof S as Hx. unfold selected in Hx. apply andb_prop in Hx as [_ Hx].
  destruct (split_second_piece line Hx) as (part' & A & P').
  assert (part' = part) by congruence. subst part'.
  exists out, err, before, line, after, part, word, ws.
  repeat (split; [assumption|]).
  split; [reflexivity|].
  pose proof (split_ws_words part) as Ws. rewrite W in Ws.
  inversion Ws as [|? ? [Hne Hns] _]. subst.
  unfold slice_to. split; [|now apply no_space_firstn].
  rewrite length_firstn. destruct word as [|c w]; [congruence|].
  cbn [List.length]. lia.
Qed.

Lemma deploy_contract_returns_word_witness :
  exists out err before line after part word ws,
    exec (healthy short_output 0 key_only) (commands [])
      (deploy_cmd (Some (lit "0xkey")) None ARBITRUM_SEPOLIA_RPC) = Exited 0 out err
    /\ split newline (out ++ err) = before ++ line :: after
    /\ Forall (fun l => selected l = false) before
    /\ selected line = true
    /\ address_text line part
    /\ split_ws part = word :: ws
    /\ lit "0xZZ" = lit "0x" ++ slice_to 40 word
    /\ (1 <= List.length (slice_to 40 word) <= 40)%nat
    /\ Forall (fun c => isspace c = false) (slice_to 40 word).
Proof.
  apply (deploy_contract_returns_word (healthy short_output 0 key_only)
           (Some (lit "0xkey")) None ARBITRUM_SEPOLIA_RPC [] (lit "0xZZ")).
  vm_compute. reflexivity.
Defined.

(** C4, as the specification words it, fails: on the output
    "deployed at 0xZZ" the deployer returns "0xZZ", which is not "0x"
    followed by forty hexadecimal digits. *)
Lemma deploy_contract_short_address :
  fst (deploy_contract (healthy short_output 0 key_only)
         (Some (lit "0xkey")) None ARBITRUM_SEPOLIA_RPC [])
    = Ret (Some (lit "0xZZ"))
  /\ is_address (lit "0xZZ") = false.
Proof. split; vm_compute; reflexivity. Qed.
